(** * Hybrid consensus and monitoring of the credit-risk API

    A shallow embedding of the decision rule of [src/api_with_monitoring.py],
    of the response parser of [src/data_generation.py] and of the in-memory
    monitor of [src/monitoring.py], with the properties of the specification
    stated and settled against them; then of the batch processing of
    [src/data_generation.py], of the health endpoints of the two APIs and of
    the health test of [scripts/test_api.py], with properties read off the
    code.

    Conventions of the embedding:
    - Python [str] is [string] (a sequence of bytes, UTF-8 for text outside
      ASCII); the values [json.loads] can produce are the type [json];
    - Python [float] is represented by the rational number it denotes ([Q]);
      rounding of sums and means is not modelled (an agreement rate over at
      most 10 samples compares with 70 and with 0.7 the same way in both);
    - [datetime] is a number of microseconds on the (naive, local) time line,
      a [timedelta] a difference of two of them;
    - the logger and the two [.jsonl] files are append-only lists carried in
      the monitor's state; the lines the module-level logger of
      [data_generation.py] writes and the pause between two rows of a batch
      have no part in any result and are left out. *)

From Stdlib Require Import ZArith QArith String Ascii List Bool Lia.
Import ListNotations.
Local Open Scope string_scope.
Set Warnings "-register-all".

(** ** Values *)

Module Json.

(** What [json.loads] returns: [None], [bool], [int], [float] (with the two
    non-finite literals the decoder accepts), [str], [list] and [dict].
    A [dict] keeps its keys in insertion order, one binding per key. *)
Inductive json : Type :=
| JNull
| JBool (b : bool)
| JInt (z : Z)
| JFloat (q : Q)
| JNaN
| JInf (negative : bool)
| JString (s : string)
| JArray (items : list json)
| JObject (members : list (string * json)).

(** [v == s] for a [str] literal [s]: only an equal [str] compares equal. *)
Definition eq_str (v : json) (s : string) : bool :=
  match v with
  | JString t => String.eqb t s
  | _ => false
  end.

(** [d[key]] on the members of a [dict]. *)
Fixpoint lookup (key : string) (d : list (string * json)) : option json :=
  match d with
  | [] => None
  | (k, v) :: rest => if String.eqb k key then Some v else lookup key rest
  end.

(** [d[key] = v]: an existing key keeps its position. *)
Fixpoint store (key : string) (v : json) (d : list (string * json))
  : list (string * json) :=
  match d with
  | [] => [(key, v)]
  | (k, w) :: rest =>
      if String.eqb k key then (k, v) :: rest else (k, w) :: store key v rest
  end.

(** [v[key]]; [None] stands for the [KeyError] / [TypeError] of Python. *)
Definition getitem (v : json) (key : string) : option json :=
  match v with
  | JObject d => lookup key d
  | _ => None
  end.

End Json.
Import Json.

(** ** The decision rule, [predict_credit_risk] lines 124-130 *)

Module Api.

(** [ml_pred = "bad" if ml_proba > 0.5 else "good"] *)
Definition ml_pred_of (ml_proba : Q) : string :=
  if Qle_bool ml_proba (1 # 2) then "good" else "bad".

Definition RECHAZAR : string := "RECHAZAR - Ambos modelos predicen alto riesgo".
Definition APROBAR : string := "APROBAR - Ambos modelos predicen bajo riesgo".
Definition REVISAR : string := "REVISAR MANUALMENTE - Modelos discrepan".

(** [bedrock_prediction] is [bedrock_result['prediction']]. *)
Definition recommendation (ml_pred : string) (bedrock_prediction : json)
  : string :=
  if String.eqb ml_pred "bad" && eq_str bedrock_prediction "bad" then RECHAZAR
  else if String.eqb ml_pred "good" && eq_str bedrock_prediction "good"
       then APROBAR
  else REVISAR.

End Api.

(** ** The vocabulary of the specification for the consensus engine

    Labels, decisions and rationales as the specification names them, and
    how the strings of the code are read as such. *)

Module Consensus.

Inductive Label : Type := Good | Bad | Unknown | Error.

(** The strings the code uses for the four labels. *)
Definition label_str (l : Label) : string :=
  match l with
  | Good => "good"
  | Bad => "bad"
  | Unknown => "unknown"
  | Error => "error"
  end.

Inductive DecisionKind : Type := Approve | Reject | ManualReview.

Record Recommendation : Type := mkRecommendation {
  decision : DecisionKind;
  rationale : string
}.

Definition known (l : Label) : bool :=
  match l with
  | Good | Bad => true
  | Unknown | Error => false
  end.

(** The three messages of the code read as recommendations of the
    specification: the word before the dash is the decision, the sentence
    after it the rule that fired. *)
Definition read_message (msg : string) : option Recommendation :=
  if String.eqb msg Api.RECHAZAR then Some (mkRecommendation Reject "both_high_risk")
  else if String.eqb msg Api.APROBAR then Some (mkRecommendation Approve "both_low_risk")
  else if String.eqb msg Api.REVISAR then Some (mkRecommendation ManualReview "models_disagree")
  else None.

(** [Decide] of the specification, as the code computes it. *)
Definition Decide (local remote : Label) : option Recommendation :=
  read_message (Api.recommendation (label_str local) (JString (label_str remote))).

End Consensus.
Import Consensus.

(** ** Strings as Python uses them in the parser *)

Module PyStr.

Definition dquote : ascii := "034"%char.
Definition backslash : ascii := "092"%char.

(** [s.find(c)]: index of the first occurrence, [-1] when there is none. *)
Fixpoint find (c : ascii) (s : string) : Z :=
  match s with
  | EmptyString => (-1)%Z
  | String a rest =>
      if Ascii.eqb a c then 0%Z
      else let i := find c rest in
           if (i <? 0)%Z then (-1)%Z else (i + 1)%Z
  end.

(** [s.rfind(c)]: index of the last occurrence, [-1] when there is none. *)
Fixpoint rfind (c : ascii) (s : string) : Z :=
  match s with
  | EmptyString => (-1)%Z
  | String a rest =>
      let i := rfind c rest in
      if (0 <=? i)%Z then (i + 1)%Z
      else if Ascii.eqb a c then 0%Z else (-1)%Z
  end.

(** A slice bound as Python normalises it. *)
Definition clip (len i : Z) : Z :=
  if (i <? 0)%Z then Z.max 0 (i + len) else Z.min i len.

(** [s[start:stop]] *)
Definition slice (start stop : Z) (s : string) : string :=
  let len := Z.of_nat (String.length s) in
  let a := clip len start in
  let b := clip len stop in
  String.substring (Z.to_nat a) (Z.to_nat (b - a)) s.

Definition lower_char (c : ascii) : ascii :=
  let n := nat_of_ascii c in
  if (65 <=? n)%nat && (n <=? 90)%nat then ascii_of_nat (n + 32) else c.

(** [s.lower()], on the letters of ASCII (no other character lowers to one
    of the letters of "good" and "bad"). *)
Fixpoint lower (s : string) : string :=
  match s with
  | EmptyString => EmptyString
  | String c rest => String (lower_char c) (lower rest)
  end.

(** [sub in s] for two strings. *)
Fixpoint contains (sub s : string) : bool :=
  String.prefix sub s ||
  match s with
  | EmptyString => false
  | String _ rest => contains sub rest
  end.

End PyStr.

(** ** A decoder for JSON text, after [json.loads]

    It follows the scanner of the standard library: white space is space,
    tab, line feed and carriage return; a string may not hold a control
    character; a number is an [int] unless it has a fraction or an exponent;
    the literals [NaN], [Infinity] and [-Infinity] are accepted; a repeated
    key keeps its last value; anything after the value but white space is an
    error.  A [float] literal denotes its exact decimal value, and nesting
    is not limited in depth. *)

Module Decoder.
Import PyStr.

Definition is_ws (c : ascii) : bool :=
  Ascii.eqb c " " || Ascii.eqb c "009" || Ascii.eqb c "010" || Ascii.eqb c "013".

Fixpoint skip_ws (s : string) : string :=
  match s with
  | String c rest => if is_ws c then skip_ws rest else s
  | EmptyString => s
  end.

Definition is_digit (c : ascii) : bool :=
  let n := nat_of_ascii c in (48 <=? n)%nat && (n <=? 57)%nat.

Definition hex_value (c : ascii) : option Z :=
  let n := nat_of_ascii c in
  if (48 <=? n)%nat && (n <=? 57)%nat then Some (Z.of_nat (n - 48))
  else if (65 <=? n)%nat && (n <=? 70)%nat then Some (Z.of_nat (n - 55))
  else if (97 <=? n)%nat && (n <=? 102)%nat then Some (Z.of_nat (n - 87))
  else None.

(** The four hexadecimal digits after a backslash-u. *)
Definition hex4 (s : string) : option (Z * string) :=
  match s with
  | String a (String b (String c (String d rest))) =>
      match hex_value a, hex_value b, hex_value c, hex_value d with
      | Some x, Some y, Some z, Some w =>
          Some ((((x * 16 + y) * 16 + z) * 16 + w)%Z, rest)
      | _, _, _, _ => None
      end
  | _ => None
  end.

Definition byte (z : Z) : ascii := ascii_of_nat (Z.to_nat z).

(** The bytes of a code point in UTF-8. *)
Definition utf8 (u : Z) : string :=
  if (u <? 128)%Z then String (byte u) EmptyString
  else if (u <? 2048)%Z then
    String (byte (192 + u / 64)) (String (byte (128 + u mod 64)) EmptyString)
  else if (u <? 65536)%Z then
    String (byte (224 + u / 4096))
      (String (byte (128 + (u / 64) mod 64))
         (String (byte (128 + u mod 64)) EmptyString))
  else
    String (byte (240 + u / 262144))
      (String (byte (128 + (u / 4096) mod 64))
         (String (byte (128 + (u / 64) mod 64))
            (String (byte (128 + u mod 64)) EmptyString))).

(** A code point escaped with backslash-u, with the low surrogate that may
    follow a high one. *)
Definition unicode_escape (s : string) : option (string * string) :=
  match hex4 s with
  | None => None
  | Some (u, rest) =>
      if (55296 <=? u)%Z && (u <=? 56319)%Z then
        match rest with
        | String b (String "u" rest2) =>
            if Ascii.eqb b backslash then
              match hex4 rest2 with
              | Some (u2, rest3) =>
                  if (56320 <=? u2)%Z && (u2 <=? 57343)%Z
                  then Some (utf8 (65536 + (u - 55296) * 1024 + (u2 - 56320)), rest3)
                  else Some (utf8 u, rest)
              | None => None
              end
            else Some (utf8 u, rest)
        | _ => Some (utf8 u, rest)
        end
      else Some (utf8 u, rest)
  end.

(** The text of a string, from the character after its opening quote to
    its closing quote; the rest of the input is returned with it. *)
Fixpoint scanstring (fuel : nat) (s : string) : option (string * string) :=
  match fuel with
  | O => None
  | S fuel' =>
      match s with
      | EmptyString => None
      | String c rest =>
          if Ascii.eqb c dquote then Some (EmptyString, rest)
          else if Ascii.eqb c backslash then
            match rest with
            | EmptyString => None
            | String e rest' =>
                let plain (x : ascii) :=
                  match scanstring fuel' rest' with
                  | Some (t, r) => Some (String x t, r)
                  | None => None
                  end in
                if Ascii.eqb e dquote then plain dquote
                else if Ascii.eqb e backslash then plain backslash
                else if Ascii.eqb e "/" then plain "/"%char
                else if Ascii.eqb e "b" then plain "008"%char
                else if Ascii.eqb e "f" then plain "012"%char
                else if Ascii.eqb e "n" then plain "010"%char
                else if Ascii.eqb e "r" then plain "013"%char
                else if Ascii.eqb e "t" then plain "009"%char
                else if Ascii.eqb e "u" then
                  match unicode_escape rest' with
                  | Some (bytes, r1) =>
                      match scanstring fuel' r1 with
                      | Some (t, r) => Some (bytes ++ t, r)
                      | None => None
                      end
                  | None => None
                  end
                else None
            end
          else if (nat_of_ascii c <? 32)%nat then None
          else
            match scanstring fuel' rest with
            | Some (t, r) => Some (String c t, r)
            | None => None
            end
      end
  end.

(** The longest prefix of digits, and what follows it. *)
Fixpoint span_digits (s : string) : string * string :=
  match s with
  | String c rest =>
      if is_digit c then let (ds, r) := span_digits rest in (String c ds, r)
      else (EmptyString, s)
  | EmptyString => (EmptyString, s)
  end.

Fixpoint digits_value (acc : Z) (ds : string) : Z :=
  match ds with
  | EmptyString => acc
  | String c rest => digits_value (acc * 10 + Z.of_nat (nat_of_ascii c - 48)) rest
  end.

(** The integer part of a number: a zero, or digits that start with 1-9. *)
Definition integer_part (s : string) : option (string * string) :=
  match s with
  | String c rest =>
      if Ascii.eqb c "0" then Some ("0", rest)
      else if is_digit c then Some (span_digits s)
      else None
  | EmptyString => None
  end.

(** The fraction: a dot and at least one digit. *)
Definition fraction_part (s : string) : option (string * string) :=
  match s with
  | String "." rest =>
      match span_digits rest with
      | (EmptyString, _) => None
      | (ds, r) => Some (ds, r)
      end
  | _ => None
  end.

(** The exponent: e or E, an optional sign, at least one digit. *)
Definition exponent_part (s : string) : option (Z * string) :=
  match s with
  | String c rest =>
      if Ascii.eqb c "e" || Ascii.eqb c "E" then
        let '(neg, rest1) :=
          match rest with
          | String "-" r => (true, r)
          | String "+" r => (false, r)
          | _ => (false, rest)
          end in
        match span_digits rest1 with
        | (EmptyString, _) => None
        | (ds, r) =>
            let e := digits_value 0 ds in
            Some (if neg then (- e)%Z else e, r)
        end
      else None
  | EmptyString => None
  end.

Definition match_number (s : string) : option (json * string) :=
  let '(neg, s1) :=
    match s with
    | String "-" r => (true, r)
    | _ => (false, s)
    end in
  match integer_part s1 with
  | None => None
  | Some (ints, r1) =>
      let sign (z : Z) := if neg then (- z)%Z else z in
      let frac := fraction_part r1 in
      let r2 := match frac with Some (_, r) => r | None => r1 end in
      let expo := exponent_part r2 in
      let r3 := match expo with Some (_, r) => r | None => r2 end in
      match frac, expo with
      | None, None => Some (JInt (sign (digits_value 0 ints)), r3)
      | _, _ =>
          let fs := match frac with Some (ds, _) => ds | None => EmptyString end in
          let e := match expo with Some (e, _) => e | None => 0%Z end in
          let mantissa := sign (digits_value (digits_value 0 ints) fs) in
          Some (JFloat (inject_Z mantissa
                        * Qpower (10 # 1) (e - Z.of_nat (String.length fs))), r3)
      end
  end.

(** [s] with the prefix [p] removed, when it starts with [p]. *)
Fixpoint strip_prefix (p s : string) : option string :=
  match p, s with
  | EmptyString, _ => Some s
  | String a p', String b s' => if Ascii.eqb a b then strip_prefix p' s' else None
  | String _ _, EmptyString => None
  end.

Definition literal (s : string) : option (json * string) :=
  match strip_prefix "null" s with Some r => Some (JNull, r) | None =>
  match strip_prefix "true" s with Some r => Some (JBool true, r) | None =>
  match strip_prefix "false" s with Some r => Some (JBool false, r) | None =>
  match match_number s with Some res => Some res | None =>
  match strip_prefix "NaN" s with Some r => Some (JNaN, r) | None =>
  match strip_prefix "Infinity" s with Some r => Some (JInf false, r) | None =>
  match strip_prefix "-Infinity" s with Some r => Some (JInf true, r) | None =>
  None end end end end end end end.

(** [scan_once] reads one value; [members] reads the pairs of an object
    from the opening quote of a key, [items] the elements of an array from
    the start of a value. *)
Fixpoint scan_once (fuel : nat) (s : string) : option (json * string) :=
  match fuel with
  | O => None
  | S fuel' =>
      match s with
      | EmptyString => None
      | String c rest =>
          if Ascii.eqb c dquote then
            match scanstring (String.length s) rest with
            | Some (t, r) => Some (JString t, r)
            | None => None
            end
          else if Ascii.eqb c "{" then
            match skip_ws rest with
            | String "}" r => Some (JObject [], r)
            | body => members fuel' body []
            end
          else if Ascii.eqb c "[" then
            match skip_ws rest with
            | String "]" r => Some (JArray [], r)
            | body => items fuel' body []
            end
          else literal s
      end
  end
with members (fuel : nat) (s : string) (acc : list (string * json))
  : option (json * string) :=
  match fuel with
  | O => None
  | S fuel' =>
      match s with
      | String q rest =>
          if Ascii.eqb q dquote then
            match scanstring (String.length s) rest with
            | None => None
            | Some (key, r1) =>
                match skip_ws r1 with
                | String ":" r2 =>
                    match scan_once fuel' (skip_ws r2) with
                    | None => None
                    | Some (v, r3) =>
                        let acc' := store key v acc in
                        match skip_ws r3 with
                        | String "}" r4 => Some (JObject acc', r4)
                        | String "," r4 => members fuel' (skip_ws r4) acc'
                        | _ => None
                        end
                    end
                | _ => None
                end
            end
          else None
      | EmptyString => None
      end
  end
with items (fuel : nat) (s : string) (acc : list json)
  : option (json * string) :=
  match fuel with
  | O => None
  | S fuel' =>
      match scan_once fuel' s with
      | None => None
      | Some (v, r1) =>
          match skip_ws r1 with
          | String "]" r2 => Some (JArray (acc ++ [v]), r2)
          | String "," r2 => items fuel' (skip_ws r2) (acc ++ [v])
          | _ => None
          end
      end
  end.

(** [json.loads(s)]; [None] stands for [JSONDecodeError]. *)
Definition loads (s : string) : option json :=
  match scan_once (2 * String.length s + 2) (skip_ws s) with
  | Some (v, rest) =>
      match skip_ws rest with
      | EmptyString => Some v
      | _ => None
      end
  | None => None
  end.

End Decoder.

(** ** The remote classifier's result, [BedrockClient] *)

Module DataGeneration.
Import PyStr.

(** The exceptions the two methods catch. *)
Inductive exn : Type :=
| JSONDecodeError (doc : string)
| TypeError (container : json)
| KeyError (key : string)
| CallError (detail : string).

(** [v[key]] for a [str] key: the value of the key in a [dict]. *)
Definition subscript (v : json) (key : string) : json + exn :=
  match v with
  | JObject d =>
      match lookup key d with
      | Some x => inl x
      | None => inr (KeyError key)
      end
  | _ => inr (TypeError v)
  end.

(** ['key' in v]: a key of a [dict], an element of a [list], a substring
    of a [str]; any other value is not a container. *)
Definition py_in (key : string) (v : json) : bool + exn :=
  match v with
  | JObject d => inl (match lookup key d with Some _ => true | None => false end)
  | JArray l => inl (existsb (fun x => eq_str x key) l)
  | JString t => inl (contains key t)
  | _ => inr (TypeError v)
  end.

Definition fallback_good : json :=
  JObject [("prediction", JString "good"); ("confidence", JFloat (6 # 10));
           ("reasoning", JString "Parsed from text")].

Definition fallback_bad : json :=
  JObject [("prediction", JString "bad"); ("confidence", JFloat (6 # 10));
           ("reasoning", JString "Parsed from text")].

Definition could_not_parse : json :=
  JObject [("prediction", JString "unknown"); ("confidence", JFloat 0);
           ("reasoning", JString "Could not parse")].

Section Parser.

(** [json.loads], and [str(e)] for a caught exception. *)
Variable json_loads : string -> option json.
Variable str_of_exn : exn -> string.

Definition parse_error (e : exn) : json :=
  JObject [("prediction", JString "unknown"); ("confidence", JFloat 0);
           ("reasoning", JString ("Parse error: " ++ str_of_exn e))].

Definition call_error (e : exn) : json :=
  JObject [("prediction", JString "unknown"); ("confidence", JFloat 0);
           ("reasoning", JString ("Error: " ++ str_of_exn e))].

(** Lines 198-203: the classification read off the words of the text. *)
Definition basic_classification (response_text : string) : json :=
  if contains "good" (lower response_text) then fallback_good
  else if contains "bad" (lower response_text) then fallback_bad
  else could_not_parse.

(** The body of the [try] of [_parse_classification_response]. *)
Definition parse_body (response_text : string) : json + exn :=
  let start_idx := find "{" response_text in
  let end_idx := (rfind "}" response_text + 1)%Z in
  if negb (start_idx =? -1)%Z && negb (end_idx =? 0)%Z then
    let json_text := slice start_idx end_idx response_text in
    match json_loads json_text with
    | None => inr (JSONDecodeError json_text)
    | Some result =>
        match py_in "prediction" result with
        | inr e => inr e
        | inl true =>
            match py_in "confidence" result with
            | inr e => inr e
            | inl true => inl result
            | inl false => inl (basic_classification response_text)
            end
        | inl false => inl (basic_classification response_text)
        end
    end
  else inl (basic_classification response_text).

Definition _parse_classification_response (response_text : string) : json :=
  match parse_body response_text with
  | inl result => result
  | inr e => parse_error e
  end.

(** What lines 127-135 of [classify_credit_risk] leave: the stripped text
    of the answer, or the exception raised on the way. *)
Inductive call_outcome : Type :=
| Answered (classification_text : string)
| Raised (e : exn).

(** [classify_credit_risk] from there on; the line logged after parsing
    reads [result['prediction']] inside the [try]. *)
Definition classify_credit_risk (outcome : call_outcome) : json :=
  match outcome with
  | Answered classification_text =>
      let result := _parse_classification_response classification_text in
      match subscript result "prediction" with
      | inl _ => result
      | inr e => call_error e
      end
  | Raised e => call_error e
  end.

End Parser.

(** The label and the confidence the caller reads from the result. *)
Definition prediction_of (result : json) : option json := getitem result "prediction".
Definition confidence_of (result : json) : option json := getitem result "confidence".

Definition label_in_vocabulary (v : option json) : bool :=
  match v with
  | Some l => eq_str l "good" || eq_str l "bad" || eq_str l "unknown"
  | None => false
  end.

Definition in_unit_interval (v : option json) : bool :=
  match v with
  | Some (JFloat q) => Qle_bool 0 q && Qle_bool q 1
  | Some (JInt z) => (0 <=? z)%Z && (z <=? 1)%Z
  | _ => false
  end.

Definition is_unknown (v : option json) : bool :=
  match v with
  | Some l => eq_str l "unknown"
  | None => false
  end.

Definition is_zero (v : option json) : bool :=
  match v with
  | Some (JFloat q) => Qeq_bool q 0
  | Some (JInt z) => (z =? 0)%Z
  | _ => false
  end.

(** The result stays inside the [ClassificationResult] boundary: a label of
    the vocabulary, a confidence between 0 and 1, which is 0 for the label
    unknown. *)
Definition bounded (result : json) : bool :=
  label_in_vocabulary (prediction_of result) &&
  in_unit_interval (confidence_of result) &&
  (negb (is_unknown (prediction_of result)) || is_zero (confidence_of result)).

(** The result is one of the three answers the parser builds itself. *)
Definition canned (result : json) : Prop :=
  (prediction_of result = Some (JString "good") /\
   confidence_of result = Some (JFloat (6 # 10))) \/
  (prediction_of result = Some (JString "bad") /\
   confidence_of result = Some (JFloat (6 # 10))) \/
  (prediction_of result = Some (JString "unknown") /\
   confidence_of result = Some (JFloat 0)).

(** The text from the first opening brace to the last closing brace of
    [text] decodes to [v], and [v] has the two required keys. *)
Definition passed_through (json_loads : string -> option json)
    (text : string) (v : json) : Prop :=
  find "{" text <> (-1)%Z /\ (rfind "}" text + 1 <> 0)%Z /\
  json_loads (slice (find "{" text) (rfind "}" text + 1) text) = Some v /\
  py_in "prediction" v = inl true /\ py_in "confidence" v = inl true.

(** The text [t] between double quotes. *)
Definition quoted (t : string) : string :=
  String dquote t ++ String dquote EmptyString.

(** An answer in the format the prompt asks for, the label in capitals as
    the prompt writes it. *)
Definition shouting_answer : string :=
  "{" ++ quoted "prediction" ++ ": " ++ quoted "GOOD" ++ ", "
      ++ quoted "confidence" ++ ": 7}".

End DataGeneration.

(** ** The monitor, [CreditRiskMonitor] *)

Module Monitoring.
Local Open Scope list_scope.

(** A [datetime] in microseconds; a [timedelta] is a difference of two. *)
Definition datetime : Type := Z.

(** [delta.seconds]: the seconds field of the normalised
    (days, seconds, microseconds) triple, between 0 and 86399. *)
Definition timedelta_seconds (delta : Z) : Z :=
  ((delta mod 86400000000) / 1000000)%Z.

Definition Qlt_bool (a b : Q) : bool := negb (Qle_bool b a).

(** [sum(l)] on a list of [float]: from 0, left to right. *)
Definition sum (l : list Q) : Q := fold_left Qplus l 0.

(** [sum] of a list of [bool]: the number of [True]. *)
Definition sum_bools (l : list bool) : Q :=
  inject_Z (Z.of_nat (List.length (filter (fun b => b) l))).

(** [len(l)] where it is used as a divisor of a [float]. *)
Definition len {A : Type} (l : list A) : Q := inject_Z (Z.of_nat (List.length l)).

(** [l[-10:]] *)
Definition last10 {A : Type} (l : list A) : list A :=
  skipn (List.length l - 10) l.

(** [l.count(x)] on a list of [str]. *)
Definition count (x : string) (l : list string) : nat :=
  List.length (filter (String.eqb x) l).

Record prediction_log : Type := mk_prediction_log {
  timestamp : datetime;
  request : json;
  ml_prediction : string;
  ml_probability : Q;
  bedrock_prediction : string;
  bedrock_confidence : Q;
  agreement : bool;
  response_time : Q
}.

Record error_log : Type := mk_error_log {
  error_timestamp : datetime;
  error_type : string;
  error_message : string;
  request_data : json
}.

(** [self.metrics], a [dict] with six fixed keys. *)
Record metrics : Type := mk_metrics {
  predictions : list prediction_log;
  response_times : list Q;
  ml_predictions : list string;
  bedrock_predictions : list string;
  agreements : list bool;
  errors : list error_log
}.

(** What is handed to [self.logger]: the level and the values formatted
    into the message. *)
Inductive log_record : Type :=
| info_prediction (ml_result : string) (ml_prob : Q) (bedrock_result : string)
    (bedrock_conf : Q) (agree : bool) (response_time : Q)
| warning_low_agreement (agreement_rate : Q)
| warning_high_response_time (avg_time : Q)
| warning_many_errors (recent : nat)
| error_record (error_type error_message : string).

(** The monitor: its metrics, and what it has emitted so far to the logger
    and appended to [predictions.jsonl] and [errors.jsonl]. *)
Record CreditRiskMonitor : Type := mk_monitor {
  self_metrics : metrics;
  logger : list log_record;
  predictions_jsonl : list prediction_log;
  errors_jsonl : list error_log
}.

(** A method: it reads and replaces the monitor and returns a value. *)
Definition method (A : Type) : Type := CreditRiskMonitor -> A * CreditRiskMonitor.

Definition ret {A : Type} (a : A) : method A := fun self => (a, self).

Definition bind {A B : Type} (m : method A) (k : A -> method B) : method B :=
  fun self => let (a, self') := m self in k a self'.

Definition run {A : Type} (m : method A) (self : CreditRiskMonitor)
  : CreditRiskMonitor := snd (m self).

(** [__init__]: empty metrics, and nothing handed to the logger or appended
    to the two files yet by this monitor.  The files themselves are opened
    in append mode and are never truncated: what an earlier process left in
    them stays in front of what this one appends. *)
Definition init : CreditRiskMonitor :=
  mk_monitor (mk_metrics [] [] [] [] [] []) [] [] [].

(** The errors of [errs] the code takes for recent at the time [now]:
    [(datetime.now() - datetime.fromisoformat(e['timestamp'])).seconds < 3600].
    The clock is read once for the whole scan. *)
Definition recent_errors (errs : list error_log) (now : datetime)
  : list error_log :=
  filter (fun e => (timedelta_seconds (now - error_timestamp e) <? 3600)%Z) errs.

(** [_check_alerts]: the warnings it logs, in order.  The divisor
    [len(recent)] is 10 behind the guard. *)
Definition _check_alerts (m : metrics) (now : datetime) : list log_record :=
  if (List.length (predictions m) <? 10)%nat then []
  else
    let recent := last10 (predictions m) in
    let recent_agreements := map agreement recent in
    let recent_times := map response_time recent in
    let agreement_rate := sum_bools recent_agreements / len recent_agreements * 100 in
    let avg_time := sum recent_times / len recent_times in
    (if Qlt_bool agreement_rate 70 then [warning_low_agreement agreement_rate] else [])
    ++ (if Qlt_bool 5 avg_time then [warning_high_response_time avg_time] else [])
    ++ (let n := List.length (recent_errors (errors m) now) in
        if (5 <? n)%nat then [warning_many_errors n] else []).

Definition INICIANDO : string := "INICIANDO".
Definition CRITICO : string := "CRÍTICO".
Definition ADVERTENCIA : string := "ADVERTENCIA".
Definition DEGRADADO : string := "DEGRADADO".
Definition SALUDABLE : string := "SALUDABLE".

(** [_get_system_status]; each division is guarded by [len(...) > 0]. *)
Definition _get_system_status (m : metrics) (now : datetime) : string :=
  match predictions m with
  | [] => INICIANDO
  | _ :: _ =>
      let recent_agreements :=
        if (10 <=? List.length (agreements m))%nat
        then last10 (agreements m) else agreements m in
      let recent_times :=
        if (10 <=? List.length (response_times m))%nat
        then last10 (response_times m) else response_times m in
      let recent_errors := List.length (recent_errors (errors m) now) in
      if (5 <? recent_errors)%nat then CRITICO
      else if (0 <? List.length recent_agreements)%nat
              && Qlt_bool (sum_bools recent_agreements / len recent_agreements) (7 # 10)
           then ADVERTENCIA
      else if (0 <? List.length recent_times)%nat
              && Qlt_bool 5 (sum recent_times / len recent_times)
           then DEGRADADO
      else SALUDABLE
  end.

(** [log_prediction]; [now] is the reading of the clock during the call.
    The probability and the confidence are numbers, as the signature
    declares them; on a confidence that is no number the source raises
    while it formats the message of lines 59-61, after the five appends
    and before the line is logged, the record written and the alerts
    checked. *)
Definition log_prediction (now : datetime) (request_data : json)
    (ml_result : string) (ml_prob : Q) (bedrock_result : string)
    (bedrock_conf : Q) (response_time : Q) : method unit :=
  fun self =>
    let agree := String.eqb ml_result bedrock_result in
    let prediction_log :=
      mk_prediction_log now request_data ml_result ml_prob bedrock_result
        bedrock_conf agree response_time in
    let m := self_metrics self in
    let m' :=
      mk_metrics (predictions m ++ [prediction_log])
        (response_times m ++ [response_time])
        (ml_predictions m ++ [ml_result])
        (bedrock_predictions m ++ [bedrock_result])
        (agreements m ++ [agree])
        (errors m) in
    let logged :=
      logger self
      ++ [info_prediction ml_result ml_prob bedrock_result bedrock_conf agree
            response_time] in
    (tt, mk_monitor m' (logged ++ _check_alerts m' now)
           (predictions_jsonl self ++ [prediction_log])
           (errors_jsonl self)).

(** [log_error] *)
Definition log_error (now : datetime) (error_type error_message : string)
    (request_data : json) : method unit :=
  fun self =>
    let error_log := mk_error_log now error_type error_message request_data in
    let m := self_metrics self in
    let m' :=
      mk_metrics (predictions m) (response_times m) (ml_predictions m)
        (bedrock_predictions m) (agreements m) (errors m ++ [error_log]) in
    (tt, mk_monitor m' (logger self ++ [error_record error_type error_message])
           (predictions_jsonl self)
           (errors_jsonl self ++ [error_log])).

(** The [dict] of the normal answer of [get_metrics_summary]. *)
Record summary : Type := mk_summary {
  total_predictions : nat;
  agreement_rate : Q;
  avg_response_time : Q;
  ml_distribution : nat * nat;
  bedrock_distribution : nat * nat;
  total_errors : nat;
  recent_predictions : list prediction_log;
  status : string
}.

Inductive summary_result : Type :=
| message (text : string)
| metrics_summary (s : summary)
| ZeroDivisionError.

Definition NO_DATA : string := "No hay datos de predicciones aún".

(** [get_metrics_summary]; [total_predictions] is not zero behind the
    guard, [len(response_times)] is checked. *)
Definition get_metrics_summary (now : datetime) : method summary_result :=
  fun self =>
    let m := self_metrics self in
    match predictions m with
    | [] => (message NO_DATA, self)
    | _ :: _ =>
        let total_predictions := List.length (predictions m) in
        let agreement_rate :=
          sum_bools (agreements m) / inject_Z (Z.of_nat total_predictions) * 100 in
        match response_times m with
        | [] => (ZeroDivisionError, self)
        | _ :: _ =>
            let avg_response_time := sum (response_times m) / len (response_times m) in
            let ml_good := count "good" (ml_predictions m) in
            let ml_bad := count "bad" (ml_predictions m) in
            let bedrock_good := count "good" (bedrock_predictions m) in
            let bedrock_bad := count "bad" (bedrock_predictions m) in
            let recent_predictions := last10 (predictions m) in
            (metrics_summary
               (mk_summary total_predictions agreement_rate avg_response_time
                  (ml_good, ml_bad) (bedrock_good, bedrock_bad)
                  (List.length (errors m)) recent_predictions
                  (_get_system_status m now)),
             self)
        end
    end.

End Monitoring.

(** ** The vocabulary of the specification for the monitor

    The snapshot of the recent window, the alerts and the health states
    are written after the words of the specification, to be compared with
    what [_check_alerts], [_get_system_status] and [get_metrics_summary]
    compute. *)

Module Engine.
Import Monitoring.

Inductive HealthStatus : Type := Starting | Healthy | Degraded | Warning | Critical.

(** The strings the code returns for the five states. *)
Definition status_name (h : HealthStatus) : string :=
  match h with
  | Starting => INICIANDO
  | Healthy => SALUDABLE
  | Degraded => DEGRADADO
  | Warning => ADVERTENCIA
  | Critical => CRITICO
  end.

Inductive AlertKind : Type := LowAgreement | HighLatency | ErrorSpike.

Definition alert_of (r : log_record) : option AlertKind :=
  match r with
  | warning_low_agreement _ => Some LowAgreement
  | warning_high_response_time _ => Some HighLatency
  | warning_many_errors _ => Some ErrorSpike
  | _ => None
  end.

Definition is_alert (a : AlertKind) (r : log_record) : bool :=
  match alert_of r, a with
  | Some LowAgreement, LowAgreement => true
  | Some HighLatency, HighLatency => true
  | Some ErrorSpike, ErrorSpike => true
  | _, _ => false
  end.

(** The alert [a] is among the records [l] handed to the logger. *)
Definition fires (a : AlertKind) (l : list log_record) : bool :=
  existsb (is_alert a) l.

(** The recent window: the last [k] stored records. *)
Definition window {A : Type} (k : nat) (l : list A) : list A :=
  skipn (List.length l - k) l.

Record Snapshot : Type := mk_snapshot {
  sample_size : nat;
  agreementRate : Q;
  avgLatency : Q
}.

(** [RecentSnapshot(k)]: the size of the recent window, the percentage of
    its records that agree and the mean of their latencies. *)
Definition RecentSnapshot (k : nat) (records : list prediction_log) : Snapshot :=
  let w := window k records in
  mk_snapshot (List.length w)
    (sum_bools (map agreement w) / len w * 100)
    (sum (map response_time w) / len w).

(** [Derive] of the specification, in its priority order. *)
Definition Derive (lifetime : nat) (snap : Snapshot) (recentErrorCount : nat)
  : HealthStatus :=
  if (lifetime =? 0)%nat then Starting
  else if (5 <? recentErrorCount)%nat then Critical
  else if (1 <=? sample_size snap)%nat && Qlt_bool (agreementRate snap) 70
       then Warning
  else if (1 <=? sample_size snap)%nat && Qlt_bool 5 (avgLatency snap)
       then Degraded
  else Healthy.

(** The states the monitor can be in: built by [__init__] and changed by
    [log_prediction] and [log_error] only. *)
Inductive reachable : CreditRiskMonitor -> Prop :=
| reach_init : reachable init
| reach_prediction now request_data ml_result ml_prob bedrock_result
    bedrock_conf response_time self :
    reachable self ->
    reachable (run (log_prediction now request_data ml_result ml_prob
                      bedrock_result bedrock_conf response_time) self)
| reach_error now error_type error_message request_data self :
    reachable self ->
    reachable (run (log_error now error_type error_message request_data) self).

(** The parallel lists of the metrics agree with the stored records. *)
Definition consistent (m : metrics) : Prop :=
  response_times m = map response_time (predictions m) /\
  ml_predictions m = map ml_prediction (predictions m) /\
  bedrock_predictions m = map bedrock_prediction (predictions m) /\
  agreements m = map agreement (predictions m).

(** A call of [log_prediction] of which only the two labels and the
    response time matter. *)
Definition observe (ml_result bedrock_result : string) (response_time : Q)
    (self : CreditRiskMonitor) : CreditRiskMonitor :=
  run (log_prediction 0%Z JNull ml_result (1 # 2) bedrock_result (1 # 2)
         response_time) self.

(** [n] calls of [log_prediction] whose agreement alternates, the first
    one agreeing when [agree] holds. *)
Fixpoint alternating (n : nat) (agree : bool) (self : CreditRiskMonitor)
  : CreditRiskMonitor :=
  match n with
  | O => self
  | S n' =>
      alternating n' (negb agree)
        (observe "good" (if agree then "good" else "bad") 1 self)
  end.

(** [n] calls of [log_error] at the time [now]. *)
Fixpoint failing (n : nat) (now : datetime) (self : CreditRiskMonitor)
  : CreditRiskMonitor :=
  match n with
  | O => self
  | S n' =>
      failing n' now (run (log_error now "PREDICTION_ERROR" "timeout" JNull) self)
  end.

(** [n] agreeing predictions of one second each. *)
Fixpoint agreeing (n : nat) (self : CreditRiskMonitor) : CreditRiskMonitor :=
  match n with
  | O => self
  | S n' => agreeing n' (observe "good" "good" 1 self)
  end.

(** A slow disagreement followed by ten fast agreements. *)
Definition long_history : CreditRiskMonitor :=
  agreeing 10 (observe "good" "bad" 100 init).

(** One day and ten seconds, in microseconds. *)
Definition a_day_and_ten_seconds : Z := 86410000000%Z.

(** Ten agreeing predictions, six errors at time 0, and one more prediction
    a day and ten seconds later. *)
Definition late_prediction : CreditRiskMonitor :=
  run (log_prediction a_day_and_ten_seconds JNull "good" (1 # 2) "good" (1 # 2) 1)
      (failing 6 0%Z (agreeing 10 init)).

(** Two predictions of which one agrees, then six errors. *)
Definition troubled : CreditRiskMonitor :=
  failing 6 0%Z (alternating 2 true init).

End Engine.

(** ** Sequences of calls on the monitor *)

Module History.
Import Monitoring.
Local Open Scope list_scope.

(** One call of a method that changes the monitor, with the reading of the
    clock during the call. *)
Inductive call : Type :=
| call_log_prediction (now : datetime) (request_data : json)
    (ml_result : string) (ml_prob : Q) (bedrock_result : string)
    (bedrock_conf : Q) (response_time : Q)
| call_log_error (now : datetime) (error_type error_message : string)
    (request_data : json).

Definition perform (c : call) (self : CreditRiskMonitor) : CreditRiskMonitor :=
  match c with
  | call_log_prediction now request_data ml_result ml_prob bedrock_result
      bedrock_conf response_time =>
      run (log_prediction now request_data ml_result ml_prob bedrock_result
             bedrock_conf response_time) self
  | call_log_error now error_type error_message request_data =>
      run (log_error now error_type error_message request_data) self
  end.

(** The calls of [calls] made one after the other. *)
Definition replay (calls : list call) (self : CreditRiskMonitor)
  : CreditRiskMonitor :=
  fold_left (fun s c => perform c s) calls self.

Definition is_log_error (c : call) : bool :=
  match c with
  | call_log_error _ _ _ _ => true
  | call_log_prediction _ _ _ _ _ _ _ => false
  end.

(** The record a call of [log_prediction] stores. *)
Definition prediction_records (calls : list call) : list prediction_log :=
  flat_map
    (fun c =>
       match c with
       | call_log_prediction now request_data ml_result ml_prob bedrock_result
           bedrock_conf response_time =>
           [mk_prediction_log now request_data ml_result ml_prob bedrock_result
              bedrock_conf (String.eqb ml_result bedrock_result) response_time]
       | call_log_error _ _ _ _ => []
       end) calls.

(** The record a call of [log_error] stores. *)
Definition error_records (calls : list call) : list error_log :=
  flat_map
    (fun c =>
       match c with
       | call_log_error now error_type error_message request_data =>
           [mk_error_log now error_type error_message request_data]
       | call_log_prediction _ _ _ _ _ _ _ => []
       end) calls.


Definition is_warning (r : log_record) : bool :=
  match r with
  | warning_low_agreement _ | warning_high_response_time _
  | warning_many_errors _ => true
  | info_prediction _ _ _ _ _ _ | error_record _ _ => false
  end.



(** One day in microseconds. *)
Definition one_day : Z := 86400000000%Z.

(** Six calls of [log_error]. *)
Definition six_errors : list call :=
  repeat (call_log_error 0%Z "PREDICTION_ERROR" "timeout" JNull) 6.

(** Ten calls of [log_prediction] of which every second one agrees. *)
Definition alternating_calls : list call :=
  map (fun agree : bool =>
         call_log_prediction 0%Z JNull "good" (1 # 2)
           (if agree then "good" else "bad") (1 # 2) 1)
      [true; false; true; false; true; false; true; false; true; false].

(** A monitor made of metrics alone. *)
Definition bare (m : metrics) : CreditRiskMonitor := mk_monitor m [] [] [].

End History.

(** ** Descriptions, prompts and batches, [BedrockClient] *)

Module Batch.
Import PyStr DataGeneration.

(** A row of the data frame as [row.to_dict()] gives it, and the [dict] of
    a customer. *)
Definition row : Type := list (string * json).

Definition newline : string := String "010" EmptyString.
Definition triple_quote : string :=
  String dquote (String dquote (String dquote EmptyString)).

(** What lines 58-84 of [generate_credit_description] leave: the stripped
    description, a [ClientError], or another exception. *)
Inductive description_outcome : Type :=
| Described (description : string)
| ClientFailed (e : exn)
| Failed (e : exn).

Section Client.

(** [json.dumps] on the [dict] of a customer, [json.loads], [str(e)], and
    the two calls of the remote model as functions of the prompt. *)
Variable json_dumps : row -> string + exn.
Variable json_loads : string -> option json.
Variable str_of_exn : exn -> string.
Variable invoke_description : string -> description_outcome.
Variable invoke_classification : string -> call_outcome.

Definition _create_description_prompt (data : row) : string + exn :=
  match json_dumps data with
  | inr e => inr e
  | inl dumped =>
      inl (newline
           ++ "    As a credit analyst, write a concise and professional 2-paragraph description of this client based on the data."
           ++ newline ++ newline
           ++ "Client data:" ++ newline
           ++ dumped ++ newline ++ newline
           ++ "Include: demographic info, financial profile, and purpose of credit."
           ++ newline
           ++ "Be objective, no opinions." ++ newline)
  end.

Definition _create_classification_prompt (data : row) (description : string)
  : string + exn :=
  match json_dumps data with
  | inr e => inr e
  | inl dumped =>
      inl (newline
           ++ "    You are a credit analyst. Based on the description and client data, classify the credit risk."
           ++ newline ++ newline
           ++ "Description:" ++ newline
           ++ triple_quote ++ description ++ triple_quote ++ newline ++ newline
           ++ "Client data:" ++ newline
           ++ dumped ++ newline ++ newline
           ++ "Respond in JSON format:" ++ newline
           ++ "{" ++ newline
           ++ "  " ++ quoted "prediction" ++ ": " ++ quoted "GOOD or BAD" ++ ","
           ++ newline
           ++ "  " ++ quoted "confidence" ++ ": float (between 0.0 and 1.0),"
           ++ newline
           ++ "  " ++ quoted "reasoning" ++ ": " ++ quoted "short explanation"
           ++ newline
           ++ "}" ++ newline)
  end.

(** [generate_credit_description]: the prompt is built before the [try]. *)
Definition generate_credit_description (customer_data : row) : string + exn :=
  match _create_description_prompt customer_data with
  | inr e => inr e
  | inl prompt =>
      inl (match invoke_description prompt with
           | Described description => description
           | ClientFailed e => "Error al generar descripción: " ++ str_of_exn e
           | Failed e => "Error inesperado: " ++ str_of_exn e
           end)
  end.

(** [classify_credit_risk] from its first line: the prompt is built before
    the [try]. *)
Definition classify_customer (customer_data : row) (description : string)
  : json + exn :=
  match _create_classification_prompt customer_data description with
  | inr e => inr e
  | inl prompt =>
      inl (classify_credit_risk json_loads str_of_exn (invoke_classification prompt))
  end.

(** The row [process_batch] appends when processing a row raised. *)
Definition error_row (r : row) (e : exn) : row :=
  store "bedrock_reasoning" (JString ("Processing error: " ++ str_of_exn e))
    (store "bedrock_confidence" (JFloat 0)
       (store "bedrock_prediction" (JString "error")
          (store "bedrock_description" (JString ("Error: " ++ str_of_exn e)) r))).

(** The body of the [try] of [process_batch] for one row. *)
Definition enriched_row (r : row) : row + exn :=
  let customer_data := r in
  match generate_credit_description customer_data with
  | inr e => inr e
  | inl description =>
      match classify_customer customer_data description with
      | inr e => inr e
      | inl classification =>
          let result := store "bedrock_description" (JString description) customer_data in
          match subscript classification "prediction" with
          | inr e => inr e
          | inl prediction =>
              let result := store "bedrock_prediction" prediction result in
              match subscript classification "confidence" with
              | inr e => inr e
              | inl confidence =>
                  let result := store "bedrock_confidence" confidence result in
                  match subscript classification "reasoning" with
                  | inr e => inr e
                  | inl reasoning => inl (store "bedrock_reasoning" reasoning result)
                  end
              end
          end
      end
  end.

Definition process_row (r : row) : row :=
  match enriched_row r with
  | inl result => result
  | inr e => error_row r e
  end.

(** The loop of [range(0, stop, step)] for a positive step. *)
Fixpoint range_loop (fuel : nat) (i stop step : Z) : list Z :=
  match fuel with
  | O => []
  | S fuel' =>
      if (i <? stop)%Z then i :: range_loop fuel' (i + step) stop step else []
  end.

(** [range(0, stop, step)] for a length [stop] and a step that is not 0:
    empty for a negative step. *)
Definition range_from_zero (stop step : Z) : list Z :=
  if (0 <? step)%Z then range_loop (Z.to_nat stop) 0 stop step else [].

(** [df.iloc[i:j]] for [0 <= i <= j]. *)
Definition iloc (i j : Z) (df : list row) : list row :=
  firstn (Z.to_nat (j - i)) (skipn (Z.to_nat i) df).

(** What [process_batch] returns: the rows handed to [pd.DataFrame], with
    the batch number and the total it announced for each batch; or the
    [ValueError] of [range] for a step of 0. *)
Inductive batch_result : Type :=
| Frame (announced : list (Z * Z)) (results : list row)
| ValueError.

Definition process_batch (df : list row) (batch_size : Z) : batch_result :=
  if (batch_size =? 0)%Z then ValueError
  else
    let n := Z.of_nat (List.length df) in
    let starts := range_from_zero n batch_size in
    Frame
      (map (fun i => (i / batch_size + 1, (n - 1) / batch_size + 1)%Z) starts)
      (flat_map (fun i => map process_row (iloc i (i + batch_size) df)) starts).

End Client.

(** A frame of three customers and a client for it: [json.dumps] succeeds,
    the description call fails and the classification answers in words. *)
Definition sample_row : row := [("age", JInt 35); ("purpose", JString "car")].
Definition sample_frame : list row := [sample_row; sample_row; sample_row].
Definition sample_dumps (r : row) : string + exn := inl "{}".
Definition sample_str (e : exn) : string := "throttled".
Definition sample_describe (prompt : string) : description_outcome :=
  ClientFailed (CallError "throttled").
Definition sample_classify (prompt : string) : call_outcome :=
  Answered "The risk looks good".

End Batch.

(** ** The health endpoints and the script that tests them *)

Module Endpoints.
Import DataGeneration.

(** [health_check] of [api.py]. *)
Definition health_check (rf_model_loaded bedrock_client_loaded : bool) : json :=
  JObject [("status", JString "healthy");
           ("ml_model", JBool rf_model_loaded);
           ("bedrock_client", JBool bedrock_client_loaded)].

(** [health_check] of [api_with_monitoring.py]; [timestamp] is the text of
    [datetime.now().isoformat()]. *)
Definition health_check_monitored (rf_model_loaded bedrock_client_loaded : bool)
    (timestamp : string) (m : Monitoring.metrics) (now : Monitoring.datetime)
  : json :=
  JObject [("status", JString "healthy");
           ("timestamp", JString timestamp);
           ("models", JObject [("ml_model", JBool rf_model_loaded);
                               ("bedrock_client", JBool bedrock_client_loaded)]);
           ("system_status", JString (Monitoring._get_system_status m now))].

(** What [requests.get] gives [test_health]: an exception, or a status code
    with the value [response.json()] decodes from the body. *)
Inductive http_response : Type :=
| NoAnswer
| Answer (status_code : Z) (body : option json).

(** [test_health] of [scripts/test_api.py]: every exception is caught and
    makes the test fail. *)
Definition test_health (response : http_response) : bool :=
  match response with
  | NoAnswer => false
  | Answer status_code body =>
      if (status_code =? 200)%Z then
        match body with
        | None => false
        | Some health =>
            match subscript health "status" with
            | inr _ => false
            | inl _ =>
                match subscript health "ml_model" with
                | inr _ => false
                | inl _ =>
                    match subscript health "bedrock_client" with
                    | inr _ => false
                    | inl _ => true
                    end
                end
            end
        end
      else false
  end.

End Endpoints.

(** ** The feature vector of [predict_credit_risk], lines 82-101 *)

Module Features.

(** The fields of [CreditRequest]; the two that default to [None] are
    options. *)
Record CreditRequest : Type := mk_request {
  age : Z;
  sex : string;
  job : Z;
  housing : string;
  saving_accounts : option string;
  checking_account : option string;
  credit_amount : Q;
  duration : Z;
  purpose : string
}.

Definition optional (v : option string) : json :=
  match v with
  | Some t => JString t
  | None => JNull
  end.

(** [request.dict()] *)
Definition request_dict (request : CreditRequest) : list (string * json) :=
  [("age", JInt (age request)); ("sex", JString (sex request));
   ("job", JInt (job request)); ("housing", JString (housing request));
   ("saving_accounts", optional (saving_accounts request));
   ("checking_account", optional (checking_account request));
   ("credit_amount", JFloat (credit_amount request));
   ("duration", JInt (duration request)); ("purpose", JString (purpose request))].

(** A fitted encoder: [transform([value])[0]], or [None] when it raises. *)
Definition encoder : Type := json -> option json.

(** [label_encoders[col]], with [None] when [col] is no key. *)
Fixpoint find_encoder (col : string) (label_encoders : list (string * encoder))
  : option encoder :=
  match label_encoders with
  | [] => None
  | (k, e) :: rest => if String.eqb k col then Some e else find_encoder col rest
  end.

Definition categorical_columns : list string :=
  ["sex"; "housing"; "saving_accounts"; "checking_account"; "purpose"].

(** The loop over the categorical columns. *)
Fixpoint encode_columns (columns : list string)
    (label_encoders : list (string * encoder)) (data : list (string * json))
  : list (string * json) :=
  match columns with
  | [] => data
  | col :: rest =>
      let data' :=
        match lookup col data, find_encoder col label_encoders with
        | Some v, Some transform =>
            let value := match v with JNull => JString "unknown" | _ => v end in
            store (col ++ "_encoded")
              (match transform value with Some code => code | None => JInt 0 end)
              data
        | _, _ => data
        end in
      encode_columns rest label_encoders data'
  end.

(** [data.get(key, 0)] *)
Definition get_or_zero (key : string) (data : list (string * json)) : json :=
  match lookup key data with
  | Some v => v
  | None => JInt 0
  end.

(** The list [features]; [None] is the [KeyError] of a missing field. *)
Definition features (request : CreditRequest)
    (label_encoders : list (string * encoder)) : option (list json) :=
  let data := encode_columns categorical_columns label_encoders (request_dict request) in
  match lookup "age" data, lookup "credit_amount" data, lookup "duration" data with
  | Some a, Some c, Some d =>
      Some [a; c; d; get_or_zero "sex_encoded" data; get_or_zero "job" data;
            get_or_zero "housing_encoded" data;
            get_or_zero "saving_accounts_encoded" data;
            get_or_zero "checking_account_encoded" data;
            get_or_zero "purpose_encoded" data]
  | _, _, _ => None
  end.

End Features.

(** ** The training data, [prepare_training_data] of the training notebook *)

Module Training.

Definition categorical_columns : list string :=
  ["Sex"; "Job"; "Housing"; "Saving accounts"; "Checking account"; "Purpose"].

(** [col in df.columns] *)
Definition has_column (col : string) (columns : list string) : bool :=
  existsb (String.eqb col) columns.

(** The keys of [label_encoders]: the categorical columns the frame has. *)
Definition encoder_keys (columns : list string) : list string :=
  filter (fun col => has_column col columns) categorical_columns.

(** [feature_columns] for a frame with the columns [columns]. *)
Definition feature_columns (columns : list string) : list string :=
  (["Age"; "Credit amount"; "Duration"]
   ++ map (fun col => (col ++ "_encoded")%string) (encoder_keys columns)
   ++ (if has_column "bedrock_confidence" columns
       then ["bedrock_confidence"] else []))%list.

(** [(condition).astype(int)] *)
Definition as_int (b : bool) : Q := if b then 1 else 0.

(** The risk score of the synthetic target; [q80] is the 0.8 quantile of
    the credit amounts. *)
Definition risk_score (age credit_amount duration q80 : Q) : Q :=
  as_int (Monitoring.Qlt_bool age 25) * (3 # 10)
  + as_int (Monitoring.Qlt_bool q80 credit_amount) * (4 # 10)
  + as_int (Monitoring.Qlt_bool 24 duration) * (3 # 10).

(** [(risk_score > 0.5).astype(int)] *)
Definition synthetic_target (age credit_amount duration q80 : Q) : Z :=
  if Monitoring.Qlt_bool (1 # 2) (risk_score age credit_amount duration q80)
  then 1%Z else 0%Z.

(** Encoders as the notebook saves them for a frame that has every column. *)
Definition saved_encoders : list (string * Features.encoder) :=
  map (fun col => (col, fun _ : json => Some (JInt 1))) categorical_columns.

Definition full_columns : list string :=
  ["Age"; "Sex"; "Job"; "Housing"; "Saving accounts"; "Checking account";
   "Credit amount"; "Duration"; "Purpose"; "bedrock_description";
   "bedrock_prediction"; "bedrock_confidence"; "bedrock_reasoning"].

End Training.

(** ** Properties of the decision rule *)

Lemma recommendation_total (ml_pred : string) (p : json) :
  Api.recommendation ml_pred p = Api.RECHAZAR \/
  Api.recommendation ml_pred p = Api.APROBAR \/
  Api.recommendation ml_pred p = Api.REVISAR.
Proof.
  unfold Api.recommendation.
  destruct (String.eqb ml_pred "bad" && eq_str p "bad"); [now left|].
  destruct (String.eqb ml_pred "good" && eq_str p "good"); [right; now left|].
  right; now right.
Qed.

Lemma eq_str_iff (v : json) (t : string) : eq_str v t = true <-> v = JString t.
Proof.
  destruct v; cbn; try (split; [discriminate | intros H; discriminate H]).
  rewrite String.eqb_eq. split; [now intros -> | now intros [= ->]].
Qed.

(** Each message is returned in one case only. *)
Lemma recommendation_cases (ml_pred : string) (p : json) :
  (Api.recommendation ml_pred p = Api.RECHAZAR
     <-> ml_pred = "bad" /\ p = JString "bad") /\
  (Api.recommendation ml_pred p = Api.APROBAR
     <-> ml_pred = "good" /\ p = JString "good") /\
  (Api.recommendation ml_pred p = Api.REVISAR
     <-> ~ (ml_pred = "bad" /\ p = JString "bad") /\
         ~ (ml_pred = "good" /\ p = JString "good")).
Proof.
  unfold Api.recommendation.
  destruct (String.eqb ml_pred "bad" && eq_str p "bad") eqn:E1.
  - apply andb_true_iff in E1. rewrite String.eqb_eq, eq_str_iff in E1.
    destruct E1 as [-> ->].
    repeat split; try discriminate; try tauto; intros [H _]; discriminate H.
  - assert (N1 : ~ (ml_pred = "bad" /\ p = JString "bad")).
    { rewrite <- String.eqb_eq, <- eq_str_iff, <- andb_true_iff. congruence. }
    destruct (String.eqb ml_pred "good" && eq_str p "good") eqn:E2.
    + apply andb_true_iff in E2. rewrite String.eqb_eq, eq_str_iff in E2.
      destruct E2 as [-> ->].
      repeat split; try discriminate; try tauto; intros [H _]; discriminate H.
    + assert (N2 : ~ (ml_pred = "good" /\ p = JString "good")).
      { rewrite <- String.eqb_eq, <- eq_str_iff, <- andb_true_iff. congruence. }
      repeat split; try discriminate; tauto.
Qed.

(** The local model's label is always one of the two known ones. *)
Lemma ml_pred_known (ml_proba : Q) :
  Api.ml_pred_of ml_proba = "good" \/ Api.ml_pred_of ml_proba = "bad".
Proof. unfold Api.ml_pred_of. destruct (Qle_bool _ _); [now left | now right]. Qed.

(** C1: for labels that are both Good or Bad, [Decide] approves exactly when
    both are Good, rejects exactly when both are Bad, and asks for a manual
    review with rationale models_disagree exactly when the labels differ. *)
Theorem decide_agreement (local remote : Label) :
  known local = true -> known remote = true ->
  (Decide local remote = Some (mkRecommendation Approve "both_low_risk")
     <-> local = Good /\ remote = Good) /\
  (Decide local remote = Some (mkRecommendation Reject "both_high_risk")
     <-> local = Bad /\ remote = Bad) /\
  (Decide local remote = Some (mkRecommendation ManualReview "models_disagree")
     <-> local <> remote) /\
  (forall r, Decide local remote = Some r ->
     decision r <> ManualReview -> local = remote).
Proof.
  intros Hl Hr.
  destruct local; try discriminate Hl; destruct remote; try discriminate Hr;
    match goal with
    | |- context [Decide ?a ?b] =>
        let v := eval vm_compute in (Decide a b) in
        change (Decide a b) with v
    end;
    (split; [|split; [|split]]);
    try (split; [intros H | intros H]);
    try discriminate; try reflexivity; try (split; reflexivity);
    try (destruct H; discriminate); try (now elim H);
    try (intros r H Hd; injection H as <-; cbn in Hd; congruence).
Qed.

Lemma decide_agreement_witness :
  Decide Good Bad = Some (mkRecommendation ManualReview "models_disagree")
    <-> Good <> Bad.
Proof.
  exact (proj1 (proj2 (proj2 (decide_agreement Good Bad eq_refl eq_refl)))).
Defined.

(** ** Labels the decision rule does not know *)

(** C2, as the code has it: when a label is Unknown or Error the rule asks
    for a manual review through its last branch, with the rationale it
    gives to disagreeing models; and the rule returns one of its three
    messages on every input. *)
Theorem decide_unavailable (local remote : Label) :
  known local = false \/ known remote = false ->
  Api.recommendation (label_str local) (JString (label_str remote)) = Api.REVISAR /\
  Decide local remote = Some (mkRecommendation ManualReview "models_disagree") /\
  (forall (ml_pred : string) (p : json),
     exists r, read_message (Api.recommendation ml_pred p) = Some r).
Proof.
  intros H. split; [|split].
  - destruct local, remote; destruct H as [H | H]; try discriminate H; reflexivity.
  - destruct local, remote; destruct H as [H | H]; try discriminate H; reflexivity.
  - intros ml_pred p.
    destruct (recommendation_total ml_pred p) as [-> | [-> | ->]];
      eexists; reflexivity.
Qed.

Lemma decide_unavailable_witness :
  Api.recommendation "good" (JString "unknown") = Api.REVISAR /\
  Decide Good Unknown = Some (mkRecommendation ManualReview "models_disagree") /\
  (forall (ml_pred : string) (p : json),
     exists r, read_message (Api.recommendation ml_pred p) = Some r).
Proof. exact (decide_unavailable Good Unknown (or_intror eq_refl)). Defined.

(** C2 as stated fails: a Good and an Unknown label give the rationale of
    disagreeing models, the same recommendation as a Good and a Bad label,
    and not the rationale classifier_unavailable. *)
Lemma unknown_label_reported_as_disagreement :
  match Decide Good Unknown with
  | Some r =>
      decision r = ManualReview /\ rationale r = "models_disagree" /\
      String.eqb (rationale r) "classifier_unavailable" = false
  | None => False
  end /\
  Decide Good Unknown = Decide Good Bad.
Proof. vm_compute. repeat split. Qed.

(** ** Auxiliary facts about the monitor *)

Import Monitoring Engine.
Local Open Scope list_scope.

Lemma Qlt_bool_iff (a b : Q) : Qlt_bool a b = true <-> (a < b)%Q.
Proof.
  unfold Qlt_bool. rewrite negb_true_iff.
  split.
  - intros H. apply Qnot_le_lt. intros Hle.
    apply Qle_bool_iff in Hle. congruence.
  - intros H. destruct (Qle_bool b a) eqn:E; [|reflexivity].
    apply Qle_bool_iff in E. exfalso. exact (Qlt_not_le _ _ H E).
Qed.

(** A fraction is below 0.7 exactly when its percentage is below 70. *)
Lemma Qlt_bool_percent (x : Q) :
  Qlt_bool x (7 # 10) = Qlt_bool (x * 100) 70.
Proof.
  unfold Qlt_bool, Qle_bool. destruct x as [n d]. cbn.
  f_equal. apply eq_true_iff_eq. rewrite !Z.leb_le. lia.
Qed.

Lemma len_map {A B : Type} (f : A -> B) (l : list A) : len (map f l) = len l.
Proof. unfold len. now rewrite length_map. Qed.

Lemma window_map {A B : Type} (f : A -> B) (k : nat) (l : list A) :
  window k (map f l) = map f (window k l).
Proof. unfold window. now rewrite length_map, skipn_map. Qed.

Lemma window_length {A : Type} (k : nat) (l : list A) :
  List.length (window k l) = Nat.min k (List.length l).
Proof. unfold window. rewrite length_skipn. lia. Qed.

Lemma window_all {A : Type} (k : nat) (l : list A) :
  (List.length l <= k)%nat -> window k l = l.
Proof.
  intros H. unfold window.
  replace (List.length l - k)%nat with 0%nat by lia. reflexivity.
Qed.

(** The conditional slice of [_get_system_status] is the recent window. *)
Lemma conditional_last10 {A : Type} (l : list A) :
  (if (10 <=? List.length l)%nat then last10 l else l) = window 10 l.
Proof.
  destruct (10 <=? List.length l)%nat eqn:E; [reflexivity|].
  apply Nat.leb_gt in E. symmetry. apply window_all. lia.
Qed.

Lemma fires_app (a : AlertKind) (l1 l2 : list log_record) :
  fires a (l1 ++ l2) = fires a l1 || fires a l2.
Proof. apply existsb_app. Qed.

(** The parallel lists never diverge from the records. *)
Lemma reachable_consistent (self : CreditRiskMonitor) :
  reachable self -> consistent (self_metrics self).
Proof.
  induction 1 as [| ? ? ? ? ? ? ? self Hr [H1 [H2 [H3 H4]]]
                  | ? ? ? ? self Hr IH].
  - repeat split.
  - unfold consistent, run, log_prediction; cbn.
    rewrite !map_app, H1, H2, H3, H4. cbn. repeat split.
  - exact IH.
Qed.

Lemma parallel_lengths (self : CreditRiskMonitor) :
  reachable self ->
  List.length (agreements (self_metrics self))
    = List.length (predictions (self_metrics self)) /\
  List.length (response_times (self_metrics self))
    = List.length (predictions (self_metrics self)).
Proof.
  intros H. destruct (reachable_consistent self H) as [H1 [_ [_ H4]]].
  rewrite H1, H4, !length_map. split; reflexivity.
Qed.

(** The status of the code is [Derive] applied to the recent window of the
    two parallel lists. *)
Lemma status_of_lists (m : metrics) (now : datetime) :
  _get_system_status m now =
  match predictions m with
  | [] => INICIANDO
  | _ :: _ =>
      let a := window 10 (agreements m) in
      let t := window 10 (response_times m) in
      if (5 <? List.length (recent_errors (errors m) now))%nat then CRITICO
      else if (0 <? List.length a)%nat
              && Qlt_bool (sum_bools a / len a * 100) 70 then ADVERTENCIA
      else if (0 <? List.length t)%nat && Qlt_bool 5 (sum t / len t)
           then DEGRADADO
      else SALUDABLE
  end.
Proof.
  unfold _get_system_status. destruct (predictions m); [reflexivity|].
  cbv zeta. rewrite !conditional_last10, Qlt_bool_percent. reflexivity.
Qed.

Lemma reachable_observe ml_result bedrock_result response_time self :
  reachable self -> reachable (observe ml_result bedrock_result response_time self).
Proof. intros H. unfold observe. now apply reach_prediction. Qed.

Lemma reachable_alternating (n : nat) :
  forall agree self, reachable self -> reachable (alternating n agree self).
Proof.
  induction n as [|n IH]; intros agree self H; cbn; [exact H|].
  apply IH. now apply reachable_observe.
Qed.

Lemma reachable_failing (n : nat) (now : datetime) :
  forall self, reachable self -> reachable (failing n now self).
Proof.
  induction n as [|n IH]; intros self H; cbn; [exact H|].
  apply IH. now apply reach_error.
Qed.

(** ** Health status *)

(** The status of the code is the one the specification derives from the
    lifetime count, the recent window and the recent error count. *)
Lemma status_is_derived (self : CreditRiskMonitor) (now : datetime) :
  reachable self ->
  let m := self_metrics self in
  _get_system_status m now
    = status_name (Derive (List.length (predictions m))
                     (RecentSnapshot 10 (predictions m))
                     (List.length (recent_errors (errors m) now))).
Proof.
  intros Hr m. rewrite status_of_lists.
  destruct (reachable_consistent self Hr) as [H1 [_ [_ H4]]].
  fold m in H1, H4. rewrite H1, H4.
  unfold Derive, RecentSnapshot; cbn [sample_size agreementRate avgLatency].
  rewrite !window_map, !len_map, !length_map.
  destruct (predictions m) as [|p ps] eqn:E; [reflexivity|].
  cbn [List.length Nat.eqb]. cbv zeta.
  change (0 <? ?x)%nat with (1 <=? x)%nat.
  destruct (5 <? _)%nat; [reflexivity|].
  destruct (_ && _); [reflexivity|].
  destruct (_ && _); reflexivity.
Qed.

(** C5: the status is derived in the priority order Starting, Critical,
    Warning, Degraded, Healthy from the lifetime count, the recent error
    count and the recent window; six recent errors give Critical even when
    the agreement rate of 50% would give Warning. *)
Theorem health_status_priority (self : CreditRiskMonitor) (now : datetime) :
  reachable self ->
  let m := self_metrics self in
  let snap := RecentSnapshot 10 (predictions m) in
  let recentErrorCount := List.length (recent_errors (errors m) now) in
  _get_system_status m now
    = status_name (Derive (List.length (predictions m)) snap recentErrorCount)
  /\ (predictions m <> [] -> recentErrorCount = 6%nat ->
      (agreementRate snap == 50)%Q ->
      Derive (List.length (predictions m)) snap 0 = Warning /\
      _get_system_status m now = CRITICO).
Proof.
  intros Hr m snap n.
  pose proof (status_is_derived self now Hr) as Hs. cbv zeta in Hs.
  fold m in Hs. fold snap in Hs. fold n in Hs.
  split; [exact Hs|].
  intros Hne He Hrate. split.
  - unfold Derive.
    destruct (predictions m) as [|p ps] eqn:E; [congruence|].
    cbn [List.length Nat.eqb]. change (5 <? 0)%nat with false. cbv iota.
    assert (Hsz : (1 <=? sample_size snap)%nat = true).
    { subst snap. unfold RecentSnapshot; cbn [sample_size].
      rewrite window_length. apply Nat.leb_le. cbn [List.length]. lia. }
    assert (Hlt : Qlt_bool (agreementRate snap) 70 = true).
    { apply Qlt_bool_iff. rewrite Hrate. reflexivity. }
    rewrite Hsz, Hlt. reflexivity.
  - rewrite Hs. unfold Derive. rewrite He.
    destruct (predictions m); [congruence|]. reflexivity.
Qed.

Lemma health_status_priority_witness :
  _get_system_status (self_metrics troubled) 10000000%Z = CRITICO.
Proof.
  refine (proj2 (proj2 (health_status_priority troubled 10000000%Z _) _ _ _)).
  - apply reachable_failing, reachable_alternating, reach_init.
  - discriminate.
  - reflexivity.
  - reflexivity.
Defined.

(** ** Alerts *)

Lemma check_alerts_gate (m : metrics) (now : datetime) :
  (List.length (predictions m) < 10)%nat -> _check_alerts m now = [].
Proof.
  intros H. unfold _check_alerts.
  apply Nat.ltb_lt in H. now rewrite H.
Qed.

(** Behind the gate each alert depends on its own condition only. *)
Lemma check_alerts_open (m : metrics) (now : datetime) :
  (10 <= List.length (predictions m))%nat ->
  let snap := RecentSnapshot 10 (predictions m) in
  fires LowAgreement (_check_alerts m now) = Qlt_bool (agreementRate snap) 70 /\
  fires HighLatency (_check_alerts m now) = Qlt_bool 5 (avgLatency snap) /\
  fires ErrorSpike (_check_alerts m now)
    = (5 <? List.length (recent_errors (errors m) now))%nat.
Proof.
  intros H snap. unfold _check_alerts.
  destruct (List.length (predictions m) <? 10)%nat eqn:E.
  { apply Nat.ltb_lt in E. lia. }
  cbv zeta. rewrite !len_map, !fires_app.
  change (last10 (predictions m)) with (window 10 (predictions m)).
  subst snap. unfold RecentSnapshot; cbn [agreementRate avgLatency].
  destruct (Qlt_bool (_ * 100) 70);
    destruct (Qlt_bool 5 _);
    destruct (5 <? _)%nat; repeat split; reflexivity.
Qed.

Lemma sample_size_full (ps : list prediction_log) :
  (10 <= sample_size (RecentSnapshot 10 ps))%nat <-> (10 <= List.length ps)%nat.
Proof.
  unfold RecentSnapshot; cbn [sample_size]. rewrite window_length. lia.
Qed.

(** C6: the low-agreement alert fires exactly when the recent window holds
    at least 10 records and its agreement rate is below 70%; nine records
    of alternating agreement raise no alert, the tenth one does. *)
Theorem low_agreement_alert :
  (forall (m : metrics) (now : datetime),
     let snap := RecentSnapshot 10 (predictions m) in
     fires LowAgreement (_check_alerts m now) = true
     <-> (10 <= sample_size snap)%nat /\ (agreementRate snap < 70)%Q) /\
  fires LowAgreement (logger (alternating 9 true init)) = false /\
  (agreementRate
     (RecentSnapshot 10 (predictions (self_metrics (alternating 10 true init))))
   < 70)%Q /\
  fires LowAgreement (logger (alternating 10 true init)) = true.
Proof.
  split; [|repeat split; vm_compute; reflexivity].
  intros m now snap. subst snap.
  rewrite sample_size_full, <- Qlt_bool_iff.
  destruct (Nat.lt_ge_cases (List.length (predictions m)) 10) as [Hlt | Hge].
  - rewrite (check_alerts_gate m now Hlt). cbn. split; [discriminate|].
    intros [H _]. lia.
  - destruct (check_alerts_open m now Hge) as [-> _]. tauto.
Qed.

(** C3, as the code has it: the high-latency alert fires exactly when at
    least 10 predictions are stored and the mean response time of the last
    10 is above 5 seconds; the error-spike alert sits behind the same gate,
    and below 10 stored predictions no alert of any kind is raised. *)
Theorem high_latency_alert (m : metrics) (now : datetime) :
  let snap := RecentSnapshot 10 (predictions m) in
  (fires HighLatency (_check_alerts m now) = true
   <-> (10 <= List.length (predictions m))%nat /\ (5 < avgLatency snap)%Q) /\
  (fires ErrorSpike (_check_alerts m now) = true
   <-> (10 <= List.length (predictions m))%nat /\
       (5 < List.length (recent_errors (errors m) now))%nat) /\
  ((List.length (predictions m) < 10)%nat -> _check_alerts m now = []).
Proof.
  intros snap. subst snap.
  rewrite <- Qlt_bool_iff, <- Nat.ltb_lt.
  destruct (Nat.lt_ge_cases (List.length (predictions m)) 10) as [Hlt | Hge].
  - rewrite (check_alerts_gate m now Hlt). cbn.
    repeat split; try discriminate; try tauto; intros [H _]; lia.
  - destruct (check_alerts_open m now Hge) as [_ [-> ->]].
    repeat split; try tauto; try lia.
Qed.

(** C3 as stated fails: one record of 6.0 seconds makes a recent window of
    one sample with a mean above 5 seconds, and no alert is logged. *)
Lemma single_slow_prediction_raises_no_alert :
  let self := observe "good" "good" 6 init in
  let snap := RecentSnapshot 10 (predictions (self_metrics self)) in
  (1 <= sample_size snap)%nat /\ (5 < avgLatency snap)%Q /\
  fires HighLatency (logger self) = false /\
  logger self = [info_prediction "good" (1 # 2) "good" (1 # 2) true 6].
Proof. cbv zeta. repeat split; vm_compute; reflexivity. Qed.

(** ** Recent errors *)

Lemma whole_seconds_below_hour (x : Z) :
  (x / 1000000 < 3600 <-> x < 3600000000)%Z.
Proof. Z.to_euclidean_division_equations. lia. Qed.

(** An error is taken for recent when its age, reduced modulo one day, is
    below one hour. *)
Lemma recent_errors_In (errs : list error_log) (now : datetime) (e : error_log) :
  In e (recent_errors errs now) <->
  In e errs /\ ((now - error_timestamp e) mod 86400000000 < 3600000000)%Z.
Proof.
  unfold recent_errors. rewrite filter_In, Z.ltb_lt. unfold timedelta_seconds.
  rewrite whole_seconds_below_hour. reflexivity.
Qed.

(** For an error less than a day old the test is the intended one. *)
Lemma recent_within_a_day (now : datetime) (e : error_log) :
  (0 <= now - error_timestamp e < 86400000000)%Z ->
  (timedelta_seconds (now - error_timestamp e) <? 3600)%Z = true
  <-> (now - error_timestamp e < 3600000000)%Z.
Proof.
  intros H. unfold timedelta_seconds.
  rewrite Z.mod_small by lia. rewrite Z.ltb_lt.
  apply whole_seconds_below_hour.
Qed.

(** C7 fails on the code: six errors logged one day and ten seconds ago are
    all older than 3600 seconds and all counted as recent; the status they
    produce is Critical, and a prediction logged then raises the
    error-spike alert. *)
Theorem day_old_errors_counted_as_recent :
  let m := self_metrics troubled in
  let now := a_day_and_ten_seconds in
  List.length (errors m) = 6%nat /\
  forallb (fun e => (3600000000 <? now - error_timestamp e)%Z) (errors m) = true /\
  List.length (recent_errors (errors m) now) = 6%nat /\
  _get_system_status m now = CRITICO /\
  fires ErrorSpike (logger late_prediction) = true.
Proof. cbv zeta. repeat split; vm_compute; reflexivity. Qed.

(** ** The summary *)

Lemma summary_reads_only (now : datetime) (self : CreditRiskMonitor) :
  snd (get_metrics_summary now self) = self.
Proof.
  unfold get_metrics_summary.
  destruct (predictions (self_metrics self)); [reflexivity|].
  destruct (response_times (self_metrics self)); reflexivity.
Qed.

(** On a reachable state with stored predictions the summary is the normal
    one, computed from the whole history. *)
Lemma summary_of_history (now : datetime) (self : CreditRiskMonitor) :
  reachable self ->
  let m := self_metrics self in
  predictions m <> [] ->
  fst (get_metrics_summary now self) =
  metrics_summary
    (mk_summary (List.length (predictions m))
       (sum_bools (map agreement (predictions m)) / len (predictions m) * 100)
       (sum (map response_time (predictions m)) / len (predictions m))
       (count "good" (ml_predictions m), count "bad" (ml_predictions m))
       (count "good" (bedrock_predictions m), count "bad" (bedrock_predictions m))
       (List.length (errors m))
       (window 10 (predictions m))
       (_get_system_status m now)).
Proof.
  intros Hr m Hne.
  destruct (reachable_consistent self Hr) as [H1 [_ [_ H4]]].
  fold m in H1, H4.
  unfold get_metrics_summary. fold m.
  rewrite H1, H4, !len_map.
  destruct (predictions m) as [|p ps] eqn:E; [congruence|].
  cbn [map fst]. reflexivity.
Qed.

(** C4, as the code has it: the agreement rate and the average response
    time of the summary are computed over every stored prediction, the
    window that holds the whole history; only the list of recent
    predictions and the status look at the last 10 records. *)
Theorem summary_rates_over_history (now : datetime) (self : CreditRiskMonitor) :
  reachable self ->
  let ps := predictions (self_metrics self) in
  ps <> [] ->
  exists s : summary,
    get_metrics_summary now self = (metrics_summary s, self) /\
    agreement_rate s = agreementRate (RecentSnapshot (List.length ps) ps) /\
    avg_response_time s = avgLatency (RecentSnapshot (List.length ps) ps) /\
    total_predictions s = sample_size (RecentSnapshot (List.length ps) ps) /\
    recent_predictions s = window 10 ps.
Proof.
  intros Hr ps Hne.
  pose proof (summary_of_history now self Hr Hne) as Hs.
  pose proof (summary_reads_only now self) as Hm.
  destruct (get_metrics_summary now self) as [r self'].
  cbn [fst snd] in Hs, Hm. subst r self'.
  eexists. split; [reflexivity|].
  unfold RecentSnapshot; cbn [agreement_rate avg_response_time total_predictions
    recent_predictions agreementRate avgLatency sample_size].
  fold ps. rewrite (window_all (List.length ps) ps) by lia.
  repeat split.
Qed.

Lemma summary_rates_over_history_witness :
  exists s : summary,
    get_metrics_summary 0%Z long_history = (metrics_summary s, long_history) /\
    agreement_rate s
      = agreementRate (RecentSnapshot 11 (predictions (self_metrics long_history))) /\
    avg_response_time s
      = avgLatency (RecentSnapshot 11 (predictions (self_metrics long_history))) /\
    total_predictions s
      = sample_size (RecentSnapshot 11 (predictions (self_metrics long_history))) /\
    recent_predictions s = window 10 (predictions (self_metrics long_history)).
Proof.
  refine (summary_rates_over_history 0%Z long_history _ _).
  - unfold long_history.
    repeat (cbn [agreeing]; try apply reachable_observe). apply reach_init.
  - discriminate.
Defined.

(** C4 as stated fails: after a slow disagreement and ten fast agreements
    the summary reports 1000/11 percent and 10 seconds, the recent window of
    10 records has 100 percent and 1 second. *)
Lemma summary_rates_are_not_recent :
  let recent := RecentSnapshot 10 (predictions (self_metrics long_history)) in
  match fst (get_metrics_summary 0%Z long_history) with
  | metrics_summary s =>
      (agreement_rate s == 1000 # 11)%Q /\ (agreementRate recent == 100)%Q /\
      (avg_response_time s == 10)%Q /\ (avgLatency recent == 1)%Q
  | _ => False
  end.
Proof. cbv zeta. vm_compute. repeat split. Qed.

(** C9: two calls of the summary from one state at one time return the
    same result, and the state after each call is the state before it. *)
Theorem summary_idempotent (now : datetime) (self : CreditRiskMonitor) :
  bind (get_metrics_summary now)
       (fun r1 => bind (get_metrics_summary now) (fun r2 => ret (r1, r2))) self
  = ((fst (get_metrics_summary now self), fst (get_metrics_summary now self)), self)
  /\ run (get_metrics_summary now) self = self.
Proof.
  pose proof (summary_reads_only now self) as Hm.
  unfold bind, ret, run. split; [|exact Hm].
  destruct (get_metrics_summary now self) as [r1 self1] eqn:E1.
  cbn [snd fst] in *. subst self1. rewrite E1. reflexivity.
Qed.

(** C10, as the code has it: with 1 to 9 stored records the summary is the
    normal structure, computed from all of them; with no record it is the
    message that there is no data yet instead. *)
Theorem summary_below_window (now : datetime) (self : CreditRiskMonitor) :
  reachable self ->
  let m := self_metrics self in
  let ps := predictions m in
  let snap := RecentSnapshot 10 ps in
  (List.length ps < 10)%nat ->
  match ps with
  | [] => get_metrics_summary now self = (message NO_DATA, self)
  | _ :: _ =>
      exists s : summary,
        get_metrics_summary now self = (metrics_summary s, self) /\
        total_predictions s = List.length ps /\
        sample_size snap = List.length ps /\
        recent_predictions s = ps /\
        agreement_rate s = agreementRate snap /\
        avg_response_time s = avgLatency snap /\
        status s = status_name
                     (Derive (List.length ps) snap
                        (List.length (recent_errors (errors m) now)))
  end.
Proof.
  intros Hr m ps snap Hlt.
  assert (Hfull : predictions m <> [] ->
    exists s : summary,
      get_metrics_summary now self = (metrics_summary s, self) /\
      total_predictions s = List.length ps /\
      sample_size snap = List.length ps /\
      recent_predictions s = ps /\
      agreement_rate s = agreementRate snap /\
      avg_response_time s = avgLatency snap /\
      status s = status_name
                   (Derive (List.length ps) snap
                      (List.length (recent_errors (errors m) now)))).
  { intros Hne.
    pose proof (summary_of_history now self Hr Hne) as Hs.
    pose proof (summary_reads_only now self) as Hm.
    pose proof (status_is_derived self now Hr) as Hd.
    cbv zeta in Hs, Hd. fold m in Hs, Hd. fold ps in Hs, Hd.
    destruct (get_metrics_summary now self) as [r self'].
    cbn [fst snd] in Hs, Hm. subst r self'.
    eexists. split; [reflexivity|].
    cbn [total_predictions recent_predictions agreement_rate avg_response_time
         status].
    subst snap. unfold RecentSnapshot; cbn [sample_size agreementRate avgLatency].
    rewrite Hd. unfold RecentSnapshot.
    rewrite !(window_all 10 ps) by lia.
    repeat split. }
  clearbody snap. subst ps.
  destruct (predictions m) as [|p ps'] eqn:E.
  - unfold get_metrics_summary. fold m. rewrite E. reflexivity.
  - apply Hfull. discriminate.
Qed.

Lemma summary_below_window_witness :
  exists s : summary,
    get_metrics_summary 0%Z (alternating 9 true init)
      = (metrics_summary s, alternating 9 true init) /\
    total_predictions s = 9%nat /\
    sample_size (RecentSnapshot 10 (predictions (self_metrics (alternating 9 true init))))
      = 9%nat /\
    recent_predictions s = predictions (self_metrics (alternating 9 true init)) /\
    agreement_rate s
      = agreementRate
          (RecentSnapshot 10 (predictions (self_metrics (alternating 9 true init)))) /\
    avg_response_time s
      = avgLatency
          (RecentSnapshot 10 (predictions (self_metrics (alternating 9 true init)))) /\
    status s = ADVERTENCIA.
Proof.
  exact (summary_below_window 0%Z (alternating 9 true init)
           (reachable_alternating 9 true init reach_init) (le_n 10)).
Defined.

(** C10 as stated fails: on the empty window the summary is not the normal
    structure but a message. *)
Lemma empty_summary_is_a_message :
  sample_size (RecentSnapshot 10 (predictions (self_metrics init))) = 0%nat /\
  get_metrics_summary 0%Z init = (message NO_DATA, init) /\
  _get_system_status (self_metrics init) 0%Z = INICIANDO.
Proof. repeat split. Qed.

(** ** The result of the remote classifier *)

Import DataGeneration PyStr.

Lemma canned_bounded (result : json) : canned result -> bounded result = true.
Proof.
  unfold canned, bounded.
  intros [[-> ->] | [[-> ->] | [-> ->]]]; reflexivity.
Qed.

Lemma basic_classification_canned (text : string) :
  canned (basic_classification text).
Proof.
  unfold basic_classification.
  destruct (contains "good" (lower text)); [left; split; reflexivity|].
  destruct (contains "bad" (lower text)); [right; left; split; reflexivity|].
  right; right; split; reflexivity.
Qed.

(** The result always has a prediction to read. *)
Lemma classification_has_prediction
    (json_loads : string -> option json) (str_of_exn : exn -> string)
    (outcome : call_outcome) :
  exists label,
    subscript (classify_credit_risk json_loads str_of_exn outcome) "prediction"
      = inl label.
Proof.
  destruct outcome as [text | e]; cbn [classify_credit_risk]; cbv zeta.
  - destruct (subscript (_parse_classification_response _ _ text) "prediction")
      as [x | e] eqn:E.
    + exists x. exact E.
    + eexists. reflexivity.
  - eexists. reflexivity.
Qed.

(** A decoded value that has the two keys is what the parser returns. *)
Lemma parse_passed_through
    (json_loads : string -> option json) (str_of_exn : exn -> string)
    (text : string) (v : json) :
  passed_through json_loads text v ->
  _parse_classification_response json_loads str_of_exn text = v.
Proof.
  intros [H1 [H2 [H3 [Hp Hc]]]].
  unfold _parse_classification_response, parse_body.
  apply Z.eqb_neq in H1, H2. rewrite H1, H2. cbn [negb andb].
  rewrite H3, Hp, Hc. reflexivity.
Qed.

(** Without such a value the parser builds the answer itself. *)
Lemma parse_not_passed_through
    (json_loads : string -> option json) (str_of_exn : exn -> string)
    (text : string) :
  (forall v, ~ passed_through json_loads text v) ->
  canned (_parse_classification_response json_loads str_of_exn text).
Proof.
  intros Hno.
  assert (Hp : forall e, canned (parse_error str_of_exn e))
    by (intros e; right; right; split; reflexivity).
  unfold _parse_classification_response, parse_body.
  destruct (negb (find "{" text =? -1)%Z) eqn:E1;
    [|apply basic_classification_canned].
  destruct (negb (rfind "}" text + 1 =? 0)%Z) eqn:E2;
    [|apply basic_classification_canned].
  cbn [andb].
  destruct (json_loads _) as [v|] eqn:E3; [|apply Hp].
  destruct (py_in "prediction" v) as [[|]|e] eqn:E4;
    [| apply basic_classification_canned | apply Hp].
  destruct (py_in "confidence" v) as [[|]|e] eqn:E5;
    [| apply basic_classification_canned | apply Hp].
  exfalso. apply (Hno v).
  apply negb_true_iff, Z.eqb_neq in E1, E2.
  repeat split; assumption.
Qed.

(** An answer the parser built itself has a prediction to read. *)
Lemma canned_subscript (str_of_exn : exn -> string) (r : json) :
  canned r ->
  match subscript r "prediction" with
  | inl _ => r
  | inr e => call_error str_of_exn e
  end = r.
Proof.
  intros Hr. unfold subscript.
  destruct r; try (destruct Hr as [[H _] | [[H _] | [H _]]]; discriminate H).
  unfold canned, prediction_of, getitem in Hr.
  destruct (lookup "prediction" members); [reflexivity|].
  destruct Hr as [[H _] | [[H _] | [H _]]]; discriminate H.
Qed.

(** C8, as the code has it: a decoded answer that has the keys prediction
    and confidence is what the parser returns, unchanged, and what
    [classify_credit_risk] returns when it is a [dict]; every other
    result, and the result of a failed call, has a label among good, bad
    and unknown with confidence 0.6 for good and bad and 0.0 for unknown. *)
Theorem classification_result_shape
    (json_loads : string -> option json) (str_of_exn : exn -> string)
    (outcome : call_outcome) :
  let result := classify_credit_risk json_loads str_of_exn outcome in
  match outcome with
  | Raised e =>
      prediction_of result = Some (JString "unknown") /\
      confidence_of result = Some (JFloat 0) /\ bounded result = true
  | Answered text =>
      ((exists v, passed_through json_loads text v /\ result = v) \/
       (canned result /\ bounded result = true)) /\
      (forall v, passed_through json_loads text v ->
         _parse_classification_response json_loads str_of_exn text = v /\
         (forall d, v = JObject d -> result = v) /\
         ((forall d, v <> JObject d) -> canned result /\ bounded result = true)) /\
      ((forall v, ~ passed_through json_loads text v) ->
       canned result /\ bounded result = true)
  end.
Proof.
  destruct outcome as [text | e]; cbn [classify_credit_risk]; cbv zeta.
  2: { repeat split. }
  assert (Hb : forall r, canned r -> canned r /\ bounded r = true)
    by (intros r Hr; split; [exact Hr | now apply canned_bounded]).
  assert (Hc : forall e, canned (call_error str_of_exn e))
    by (intros e; right; right; split; reflexivity).
  assert (Hyes : forall v, passed_through json_loads text v ->
            _parse_classification_response json_loads str_of_exn text = v /\
            (forall d, v = JObject d ->
               match subscript (_parse_classification_response json_loads
                                  str_of_exn text) "prediction" with
               | inl _ => _parse_classification_response json_loads str_of_exn text
               | inr e => call_error str_of_exn e
               end = v) /\
            ((forall d, v <> JObject d) ->
               canned match subscript (_parse_classification_response json_loads
                                         str_of_exn text) "prediction" with
                      | inl _ => _parse_classification_response json_loads
                                   str_of_exn text
                      | inr e => call_error str_of_exn e
                      end /\
               bounded match subscript (_parse_classification_response json_loads
                                          str_of_exn text) "prediction" with
                       | inl _ => _parse_classification_response json_loads
                                    str_of_exn text
                       | inr e => call_error str_of_exn e
                       end = true)).
  { intros v Hv.
    pose proof (parse_passed_through json_loads str_of_exn text v Hv) as E.
    rewrite E. split; [reflexivity|]. split.
    - intros d ->. destruct Hv as [_ [_ [_ [Hp _]]]]. cbn [py_in] in Hp.
      unfold subscript.
      destruct (lookup "prediction" d); [reflexivity | discriminate Hp].
    - intros Hnd. apply Hb.
      destruct v; try apply Hc. exfalso. exact (Hnd members eq_refl). }
  assert (Hno : (forall v, ~ passed_through json_loads text v) ->
            canned match subscript (_parse_classification_response json_loads
                                      str_of_exn text) "prediction" with
                   | inl _ => _parse_classification_response json_loads
                                str_of_exn text
                   | inr e => call_error str_of_exn e
                   end /\
            bounded match subscript (_parse_classification_response json_loads
                                       str_of_exn text) "prediction" with
                    | inl _ => _parse_classification_response json_loads
                                 str_of_exn text
                    | inr e => call_error str_of_exn e
                    end = true).
  { intros H.
    pose proof (parse_not_passed_through json_loads str_of_exn text H) as Hcan.
    rewrite (canned_subscript str_of_exn _ Hcan). now apply Hb. }
  split; [|split; [exact Hyes | exact Hno]].
  destruct (find "{" text =? -1)%Z eqn:E1.
  { right. apply Hno. intros v [H1 _]. apply Z.eqb_eq in E1. contradiction. }
  destruct (rfind "}" text + 1 =? 0)%Z eqn:E2.
  { right. apply Hno. intros v [_ [H2 _]]. apply Z.eqb_eq in E2. contradiction. }
  destruct (json_loads (slice (find "{" text) (rfind "}" text + 1) text))
    as [v|] eqn:E3.
  2: { right. apply Hno. intros v [_ [_ [H3 _]]]. congruence. }
  destruct (py_in "prediction" v) as [[|]|e] eqn:E4.
  2, 3: right; apply Hno; intros w [_ [_ [H3 [Hp _]]]]; congruence.
  destruct (py_in "confidence" v) as [[|]|e] eqn:E5.
  2, 3: right; apply Hno; intros w [_ [_ [H3 [_ Hq]]]]; congruence.
  assert (Hv : passed_through json_loads text v).
  { apply Z.eqb_neq in E1, E2. repeat split; assumption. }
  destruct (Hyes v Hv) as [_ [Hd Hnd]].
  destruct v; try (right; apply Hnd; intros d; discriminate).
  left. exists (JObject members). split; [exact Hv|]. exact (Hd members eq_refl).
Qed.

Lemma classification_result_shape_witness :
  classify_credit_risk Decoder.loads (fun _ => EmptyString) (Answered shouting_answer)
  = JObject [("prediction", JString "GOOD"); ("confidence", JInt 7)].
Proof.
  refine (proj1 (proj2
            (proj1 (proj2
               (classification_result_shape Decoder.loads (fun _ => EmptyString)
                  (Answered shouting_answer)))
               (JObject [("prediction", JString "GOOD"); ("confidence", JInt 7)])
               _))
            [("prediction", JString "GOOD"); ("confidence", JInt 7)] eq_refl).
  unfold passed_through.
  split; [vm_compute; discriminate|].
  split; [vm_compute; discriminate|].
  split; [vm_compute; reflexivity|].
  split; vm_compute; reflexivity.
Defined.

(** C8 as stated fails: the answer the prompt asks for, with the label in
    capitals and a confidence of 7, is returned as decoded. *)
Lemma shouting_answer_crosses_boundary :
  let result :=
    classify_credit_risk Decoder.loads (fun _ => EmptyString)
      (Answered shouting_answer) in
  result = JObject [("prediction", JString "GOOD"); ("confidence", JInt 7)] /\
  label_in_vocabulary (prediction_of result) = false /\
  in_unit_interval (confidence_of result) = false /\
  bounded result = false.
Proof. vm_compute. repeat split. Qed.

(** ** The monitor over sequences of calls *)

Import History.

Lemma replay_snoc (calls : list call) (c : call) (self : CreditRiskMonitor) :
  replay (calls ++ [c]) self = perform c (replay calls self).
Proof. unfold replay. now rewrite fold_left_app. Qed.

Lemma reachable_perform (c : call) (self : CreditRiskMonitor) :
  reachable self -> reachable (perform c self).
Proof.
  intros H. destruct c; cbn [perform];
    [now apply reach_prediction | now apply reach_error].
Qed.

Lemma reachable_replay (calls : list call) :
  forall self, reachable self -> reachable (replay calls self).
Proof.
  induction calls as [|c calls IH]; intros self H; [exact H|].
  cbn. apply IH. now apply reachable_perform.
Qed.

(** Every state the monitor can be in is the one some sequence of calls
    leaves. *)
Lemma reachable_is_replay (self : CreditRiskMonitor) :
  reachable self -> exists calls, self = replay calls init.
Proof.
  induction 1 as [| now rq ml mp br bc rt self Hr [calls ->]
                  | now ty msg rq self Hr [calls ->]].
  - exists []. reflexivity.
  - exists (calls ++ [call_log_prediction now rq ml mp br bc rt]).
    now rewrite replay_snoc.
  - exists (calls ++ [call_log_error now ty msg rq]).
    now rewrite replay_snoc.
Qed.

(** What a sequence of calls adds to the metrics and to the files. *)
Lemma replay_appends (calls : list call) (self : CreditRiskMonitor) :
  predictions (self_metrics (replay calls self))
    = predictions (self_metrics self) ++ prediction_records calls /\
  errors (self_metrics (replay calls self))
    = errors (self_metrics self) ++ error_records calls /\
  predictions_jsonl (replay calls self)
    = predictions_jsonl self ++ prediction_records calls /\
  errors_jsonl (replay calls self)
    = errors_jsonl self ++ error_records calls.
Proof.
  revert self. induction calls as [|c calls IH]; intros self.
  - cbn. now rewrite !app_nil_r.
  - cbn [replay fold_left]. fold (replay calls (perform c self)).
    destruct (IH (perform c self)) as [H1 [H2 [H3 H4]]].
    rewrite H1, H2, H3, H4.
    destruct c; cbn; rewrite <- ?app_assoc; repeat split; reflexivity.
Qed.

(** X1: the predictions and errors stored in memory are the records of the
    calls made, in the order of the calls; nothing is dropped, evicted,
    reordered or rewritten; and [errors.jsonl] is appended the record of
    every call of [log_error]. *)
Theorem history_is_the_call_log (calls : list call) (self : CreditRiskMonitor) :
  predictions (self_metrics (replay calls self))
    = predictions (self_metrics self) ++ prediction_records calls /\
  errors (self_metrics (replay calls self))
    = errors (self_metrics self) ++ error_records calls /\
  errors_jsonl (replay calls self)
    = errors_jsonl self ++ error_records calls.
Proof.
  revert self. induction calls as [|c calls IH]; intros self.
  - cbn. now rewrite !app_nil_r.
  - cbn [replay fold_left]. fold (replay calls (perform c self)).
    destruct (IH (perform c self)) as [H1 [H2 H3]].
    rewrite H1, H2, H3.
    destruct c; cbn; rewrite <- ?app_assoc; repeat split; reflexivity.
Qed.

(** X2: on every state the monitor can reach, the four parallel lists of
    the metrics are the response times, the two labels and the agreement
    flags of the stored predictions, in their order, one entry per stored
    prediction. *)
Theorem parallel_lists_in_step (calls : list call) :
  let m := self_metrics (replay calls init) in
  (response_times m = map response_time (predictions m) /\
   ml_predictions m = map ml_prediction (predictions m) /\
   bedrock_predictions m = map bedrock_prediction (predictions m) /\
   agreements m = map agreement (predictions m)) /\
  List.length (response_times m) = List.length (predictions m) /\
  List.length (ml_predictions m) = List.length (predictions m) /\
  List.length (bedrock_predictions m) = List.length (predictions m) /\
  List.length (agreements m) = List.length (predictions m).
Proof.
  intros m.
  destruct (reachable_consistent _ (reachable_replay calls init reach_init))
    as [H1 [H2 [H3 H4]]].
  fold m in H1, H2, H3, H4.
  split; [repeat split; assumption|].
  rewrite H1, H2, H3, H4, !length_map. repeat split.
Qed.

(** *** The summary on reachable states *)

Lemma sum_bools_bounds (l : list bool) :
  (0 <= sum_bools l)%Q /\ (sum_bools l <= len l)%Q.
Proof.
  unfold sum_bools, len. change 0%Q with (inject_Z 0). rewrite <- !Zle_Qle.
  pose proof (filter_length_le (fun b : bool => b) l). lia.
Qed.

(** A part of a non-empty whole is between 0 and 100 percent of it. *)
Lemma percentage_bounds (a b : Q) :
  (0 <= a)%Q -> (a <= b)%Q -> (0 < b)%Q ->
  (0 <= a / b * 100)%Q /\ (a / b * 100 <= 100)%Q.
Proof.
  intros Ha Hab Hb. split.
  - apply Qmult_le_0_compat; [|discriminate].
    apply Qle_shift_div_l; [exact Hb|]. now rewrite Qmult_0_l.
  - apply Qle_trans with (1 * 100)%Q; [|discriminate].
    apply Qmult_le_compat_r; [|discriminate].
    apply Qle_shift_div_r; [exact Hb|]. now rewrite Qmult_1_l.
Qed.

Lemma len_positive {A : Type} (l : list A) : l <> [] -> (0 < len l)%Q.
Proof.
  intros H. unfold len. change 0%Q with (inject_Z 0). rewrite <- Zlt_Qlt.
  destruct l; [congruence|]. cbn [List.length]. lia.
Qed.

Lemma count_good_bad (l : list string) :
  (count "good" l + count "bad" l <= List.length l)%nat.
Proof.
  unfold count. induction l as [|x l IH]; [reflexivity|].
  cbn [filter List.length].
  destruct (String.eqb "good" x) eqn:Eg; destruct (String.eqb "bad" x) eqn:Eb;
    cbn [List.length]; try lia.
  apply String.eqb_eq in Eg, Eb. congruence.
Qed.

(** X3: on a reachable state the summary never fails with a division by
    zero: it is the message that there is no data exactly when no prediction
    is stored, and the normal structure with the lifetime counts otherwise. *)
Theorem summary_never_fails (calls : list call) (now : datetime) :
  let self := replay calls init in
  match fst (get_metrics_summary now self) with
  | message text => text = NO_DATA /\ prediction_records calls = []
  | metrics_summary s =>
      prediction_records calls <> [] /\
      total_predictions s = List.length (prediction_records calls) /\
      total_errors s = List.length (error_records calls)
  | ZeroDivisionError => False
  end.
Proof.
  intros self.
  pose proof (reachable_replay calls init reach_init) as Hr. fold self in Hr.
  destruct (replay_appends calls init) as [E1 [E2 _]]. fold self in E1, E2.
  cbn [init self_metrics predictions errors app] in E1, E2.
  destruct (prediction_records calls) as [|p ps] eqn:E.
  - unfold get_metrics_summary. rewrite E1. cbn. split; reflexivity.
  - assert (Hne : predictions (self_metrics self) <> []) by (rewrite E1; discriminate).
    rewrite (summary_of_history now self Hr Hne).
    cbn [total_predictions total_errors]. rewrite E1, E2.
    repeat split. discriminate.
Qed.

(** X4: the agreement rate of the summary is a percentage: on a reachable
    state it lies between 0 and 100. *)
Theorem summary_rate_is_a_percentage (calls : list call) (now : datetime) :
  match fst (get_metrics_summary now (replay calls init)) with
  | metrics_summary s => (0 <= agreement_rate s)%Q /\ (agreement_rate s <= 100)%Q
  | message _ => prediction_records calls = []
  | ZeroDivisionError => False
  end.
Proof.
  pose proof (reachable_replay calls init reach_init) as Hr.
  destruct (replay_appends calls init) as [E1 _].
  cbn [init self_metrics predictions app] in E1.
  destruct (prediction_records calls) as [|p ps] eqn:E.
  - unfold get_metrics_summary. rewrite E1. reflexivity.
  - assert (Hne : predictions (self_metrics (replay calls init)) <> [])
      by (rewrite E1; discriminate).
    rewrite (summary_of_history now _ Hr Hne). cbn [agreement_rate].
    destruct (sum_bools_bounds (map agreement (predictions (self_metrics (replay calls init)))))
      as [H0 H1].
    rewrite len_map in H1.
    apply percentage_bounds; [exact H0 | exact H1 | now apply len_positive].
Qed.

(** X5: in the summary the counts of good and of bad labels of each model
    never add up to more than the number of predictions. *)
Theorem summary_distribution_within_total (calls : list call) (now : datetime) :
  match fst (get_metrics_summary now (replay calls init)) with
  | metrics_summary s =>
      (fst (ml_distribution s) + snd (ml_distribution s) <= total_predictions s)%nat /\
      (fst (bedrock_distribution s) + snd (bedrock_distribution s)
         <= total_predictions s)%nat
  | message _ => prediction_records calls = []
  | ZeroDivisionError => False
  end.
Proof.
  pose proof (reachable_replay calls init reach_init) as Hr.
  destruct (reachable_consistent _ Hr) as [_ [H2 [H3 _]]].
  destruct (replay_appends calls init) as [E1 _].
  cbn [init self_metrics predictions app] in E1.
  destruct (prediction_records calls) as [|p ps] eqn:E.
  - unfold get_metrics_summary. rewrite E1. reflexivity.
  - assert (Hne : predictions (self_metrics (replay calls init)) <> [])
      by (rewrite E1; discriminate).
    rewrite (summary_of_history now _ Hr Hne).
    cbn [ml_distribution bedrock_distribution total_predictions fst snd].
    pose proof (count_good_bad (ml_predictions (self_metrics (replay calls init)))) as C1.
    pose proof (count_good_bad (bedrock_predictions (self_metrics (replay calls init)))) as C2.
    rewrite H2 in C1 at 3. rewrite H3 in C2 at 3. rewrite length_map in C1, C2.
    split; assumption.
Qed.

(** *** Errors, warnings and the clock *)


Lemma filter_all {A : Type} (f : A -> bool) (l : list A) :
  forallb f l = true -> filter f l = l.
Proof.
  induction l as [|x l IH]; [reflexivity|]. cbn.
  intros H. apply andb_true_iff in H. destruct H as [-> H]. now rewrite IH.
Qed.

Lemma filter_none {A : Type} (f : A -> bool) (l : list A) :
  forallb f l = true -> filter (fun x => negb (f x)) l = [].
Proof.
  induction l as [|x l IH]; [reflexivity|]. cbn.
  intros H. apply andb_true_iff in H. destruct H as [-> H]. cbn. now apply IH.
Qed.

(** X6: calls of [log_error] alone, however many, store no prediction and
    raise no alert; while no prediction is stored the status stays
    INICIANDO and the summary stays the message that there is no data. *)
Theorem errors_alone_raise_nothing
    (calls : list call) (self : CreditRiskMonitor) (now : datetime) :
  forallb is_log_error calls = true ->
  predictions (self_metrics (replay calls self)) = predictions (self_metrics self) /\
  filter is_warning (logger (replay calls self)) = filter is_warning (logger self) /\
  List.length (errors (self_metrics (replay calls self)))
    = (List.length (errors (self_metrics self)) + List.length calls)%nat /\
  (predictions (self_metrics self) = [] ->
   _get_system_status (self_metrics (replay calls self)) now = INICIANDO /\
   fst (get_metrics_summary now (replay calls self)) = message NO_DATA).
Proof.
  intros Hall.
  assert (H : predictions (self_metrics (replay calls self))
                = predictions (self_metrics self) /\
              filter is_warning (logger (replay calls self))
                = filter is_warning (logger self) /\
              List.length (errors (self_metrics (replay calls self)))
                = (List.length (errors (self_metrics self)) + List.length calls)%nat).
  { revert self. induction calls as [|c calls IH]; intros self.
    - cbn. repeat split. lia.
    - cbn in Hall. apply andb_true_iff in Hall. destruct Hall as [Hc Hall].
      cbn [replay fold_left]. fold (replay calls (perform c self)).
      destruct (IH Hall (perform c self)) as [H1 [H2 H3]].
      rewrite H1, H2, H3.
      destruct c; [discriminate Hc|]. cbn.
      rewrite filter_app, length_app. cbn. rewrite app_nil_r.
      repeat split. lia. }
  destruct H as [H1 [H2 H3]].
  split; [exact H1|]. split; [exact H2|]. split; [exact H3|].
  intros H0. split.
  - unfold _get_system_status. rewrite H1, H0. reflexivity.
  - unfold get_metrics_summary. rewrite H1, H0. reflexivity.
Qed.

Lemma errors_alone_raise_nothing_witness :
  predictions (self_metrics (replay six_errors init)) = predictions (self_metrics init) /\
  filter is_warning (logger (replay six_errors init)) = filter is_warning (logger init) /\
  List.length (errors (self_metrics (replay six_errors init)))
    = (List.length (errors (self_metrics init)) + List.length six_errors)%nat /\
  (predictions (self_metrics init) = [] ->
   _get_system_status (self_metrics (replay six_errors init)) 1%Z = INICIANDO /\
   fst (get_metrics_summary 1%Z (replay six_errors init)) = message NO_DATA).
Proof. exact (errors_alone_raise_nothing six_errors init 1%Z eq_refl). Defined.



Lemma error_records_cons (c : call) (calls : list call) :
  error_records (c :: calls) = error_records [c] ++ error_records calls.
Proof. unfold error_records. cbn [flat_map]. now rewrite app_nil_r. Qed.


Lemma timedelta_seconds_period (delta k : Z) :
  timedelta_seconds (delta + k * one_day)%Z = timedelta_seconds delta.
Proof. unfold timedelta_seconds, one_day. now rewrite Z_mod_plus_full. Qed.

Lemma recent_errors_period (errs : list error_log) (now : datetime) (k : Z) :
  recent_errors errs (now + k * one_day)%Z = recent_errors errs now.
Proof.
  unfold recent_errors. apply filter_ext. intros e.
  replace (now + k * one_day - error_timestamp e)%Z
    with (now - error_timestamp e + k * one_day)%Z by lia.
  now rewrite timedelta_seconds_period.
Qed.

(** X8: the clock enters the monitor modulo one day only: the errors taken
    for recent, the status and the alerts are the same a whole number of
    days earlier or later. *)
Theorem clock_counts_modulo_one_day (m : metrics) (now : datetime) (k : Z) :
  recent_errors (errors m) (now + k * one_day)%Z = recent_errors (errors m) now /\
  _get_system_status m (now + k * one_day)%Z = _get_system_status m now /\
  _check_alerts m (now + k * one_day)%Z = _check_alerts m now.
Proof.
  split; [apply recent_errors_period|].
  unfold _get_system_status, _check_alerts.
  rewrite !recent_errors_period. split; reflexivity.
Qed.

(** *** Alerts and status from ten predictions on *)

Lemma last10_length {A : Type} (l : list A) :
  (10 <= List.length l)%nat -> List.length (last10 l) = 10%nat.
Proof.
  intros H. change (last10 l) with (window 10 l). rewrite window_length. lia.
Qed.

Lemma filter_map_length {A : Type} (f : A -> bool) (l : list A) :
  List.length (filter (fun b : bool => b) (map f l)) = List.length (filter f l).
Proof.
  induction l as [|x l IH]; [reflexivity|]. cbn.
  destruct (f x); cbn; now rewrite IH.
Qed.

(** Of ten samples, less than 70 percent is at most six. *)
Lemma below_seventy_of_ten (k : nat) :
  (inject_Z (Z.of_nat k) / inject_Z 10 * 100 < 70)%Q <-> (k <= 6)%nat.
Proof. unfold Qlt, Qdiv, Qmult, Qinv, inject_Z. cbn. lia. Qed.

(** A mean of ten values is above 5 when their sum is above 50. *)
Lemma mean_of_ten_above_five (x : Q) :
  (5 < x / inject_Z 10)%Q <-> (50 < x)%Q.
Proof.
  destruct x as [n d]. unfold Qlt, Qdiv, Qmult, Qinv, inject_Z.
  cbn [Qnum Qden]. rewrite Pos2Z.inj_mul. lia.
Qed.

(** X9: from ten stored predictions on, the low-agreement warning is logged
    exactly when at most six of the last ten records agree, and the
    response-time warning exactly when the last ten response times add up
    to more than 50 seconds. *)
Theorem alert_thresholds_in_counts (m : metrics) (now : datetime) :
  (10 <= List.length (predictions m))%nat ->
  let recent := last10 (predictions m) in
  (fires LowAgreement (_check_alerts m now) = true
   <-> (List.length (filter agreement recent) <= 6)%nat) /\
  (fires HighLatency (_check_alerts m now) = true
   <-> (50 < sum (map response_time recent))%Q).
Proof.
  intros H recent.
  destruct (check_alerts_open m now H) as [-> [-> _]].
  unfold RecentSnapshot; cbn [agreementRate avgLatency].
  change (window 10 (predictions m)) with recent.
  rewrite !Qlt_bool_iff. unfold sum_bools, len.
  rewrite filter_map_length. subst recent. rewrite (last10_length _ H).
  change (Z.of_nat 10) with 10%Z.
  split; [apply below_seventy_of_ten | apply mean_of_ten_above_five].
Qed.

Lemma alert_thresholds_in_counts_witness :
  (fires LowAgreement
     (_check_alerts (self_metrics (alternating 10 true init)) 0%Z) = true
   <-> (List.length
          (filter agreement
             (last10 (predictions (self_metrics (alternating 10 true init)))))
        <= 6)%nat) /\
  (fires HighLatency
     (_check_alerts (self_metrics (alternating 10 true init)) 0%Z) = true
   <-> (50 < sum (map response_time
                    (last10 (predictions (self_metrics (alternating 10 true init))))))%Q).
Proof.
  exact (alert_thresholds_in_counts (self_metrics (alternating 10 true init)) 0%Z
           (le_n 10)).
Defined.

Lemma check_alerts_empty (m : metrics) (now : datetime) :
  (10 <= List.length (predictions m))%nat ->
  _check_alerts m now = [] <->
  fires LowAgreement (_check_alerts m now) = false /\
  fires HighLatency (_check_alerts m now) = false /\
  fires ErrorSpike (_check_alerts m now) = false.
Proof.
  intros H. unfold _check_alerts.
  destruct (List.length (predictions m) <? 10)%nat eqn:E.
  { apply Nat.ltb_lt in E. lia. }
  cbv zeta.
  destruct (Qlt_bool _ 70); destruct (Qlt_bool 5 _); destruct (5 <? _)%nat;
    cbn; split; try discriminate; try tauto;
    intros [H1 [H2 H3]]; discriminate.
Qed.

(** X10: from ten stored predictions on, the status and the warnings of
    [_check_alerts] at the same time agree: CRÍTICO with the error warning,
    ADVERTENCIA with the low-agreement warning and no error warning,
    DEGRADADO with the response-time warning alone, SALUDABLE with no
    warning at all. *)
Theorem status_matches_alerts (calls : list call) (now : datetime) :
  let m := self_metrics (replay calls init) in
  let alerts := _check_alerts m now in
  (10 <= List.length (prediction_records calls))%nat ->
  (_get_system_status m now = CRITICO <-> fires ErrorSpike alerts = true) /\
  (_get_system_status m now = ADVERTENCIA
   <-> fires ErrorSpike alerts = false /\ fires LowAgreement alerts = true) /\
  (_get_system_status m now = DEGRADADO
   <-> fires ErrorSpike alerts = false /\ fires LowAgreement alerts = false /\
       fires HighLatency alerts = true) /\
  (_get_system_status m now = SALUDABLE <-> alerts = []).
Proof.
  intros m alerts H.
  pose proof (reachable_replay calls init reach_init) as Hr.
  destruct (replay_appends calls init) as [E1 _].
  cbn [init self_metrics predictions app] in E1. fold m in E1.
  assert (H10 : (10 <= List.length (predictions m))%nat) by (rewrite E1; exact H).
  pose proof (status_is_derived _ now Hr) as Hs. cbv zeta in Hs. fold m in Hs.
  rewrite Hs.
  subst alerts. rewrite (check_alerts_empty m now H10).
  destruct (check_alerts_open m now H10) as [-> [-> ->]].
  unfold Derive.
  destruct (List.length (predictions m)) as [|n] eqn:En; [lia|].
  cbn [Nat.eqb].
  assert (Hsz : (1 <=? sample_size (RecentSnapshot 10 (predictions m)))%nat = true).
  { apply Nat.leb_le. unfold RecentSnapshot; cbn [sample_size].
    rewrite window_length. lia. }
  rewrite Hsz. cbn [andb].
  destruct (5 <? _)%nat; destruct (Qlt_bool _ 70); destruct (Qlt_bool 5 _);
    cbn [status_name]; unfold CRITICO, ADVERTENCIA, DEGRADADO, SALUDABLE;
    repeat split; intros; try discriminate; try tauto;
    repeat match goal with H : _ /\ _ |- _ => destruct H end; try discriminate.
Qed.

Lemma status_matches_alerts_witness :
  let m := self_metrics (replay alternating_calls init) in
  let alerts := _check_alerts m 0%Z in
  (_get_system_status m 0%Z = CRITICO <-> fires ErrorSpike alerts = true) /\
  (_get_system_status m 0%Z = ADVERTENCIA
   <-> fires ErrorSpike alerts = false /\ fires LowAgreement alerts = true) /\
  (_get_system_status m 0%Z = DEGRADADO
   <-> fires ErrorSpike alerts = false /\ fires LowAgreement alerts = false /\
       fires HighLatency alerts = true) /\
  (_get_system_status m 0%Z = SALUDABLE <-> alerts = []).
Proof. exact (status_matches_alerts alternating_calls 0%Z (le_n 10)). Defined.

(** ** The decision rule and the remote result together *)

Lemma ml_pred_of_good (ml_proba : Q) :
  Api.ml_pred_of ml_proba = "good" <-> (ml_proba <= 1 # 2)%Q.
Proof.
  unfold Api.ml_pred_of. rewrite <- Qle_bool_iff.
  destruct (Qle_bool ml_proba (1 # 2)); split; intros H;
    try reflexivity; discriminate H.
Qed.

Lemma ml_pred_of_bad (ml_proba : Q) :
  Api.ml_pred_of ml_proba = "bad" <-> (1 # 2 < ml_proba)%Q.
Proof.
  unfold Api.ml_pred_of.
  destruct (Qle_bool ml_proba (1 # 2)) eqn:E.
  - apply Qle_bool_iff in E. split; [discriminate|].
    intros H. exfalso. exact (Qlt_not_le _ _ H E).
  - split; [|reflexivity]. intros _. apply Qnot_le_lt. intros H.
    apply Qle_bool_iff in H. congruence.
Qed.

(** X11: with the local label taken from the probability, a request is
    approved exactly when the probability is at most 0.5 and the remote
    label is the string good, rejected exactly when the probability is
    above 0.5 and the remote label is the string bad, and sent to manual
    review in every other case; a probability of exactly 0.5 counts as
    good. *)
Theorem recommendation_by_probability (ml_proba : Q) (p : json) :
  (Api.recommendation (Api.ml_pred_of ml_proba) p = Api.APROBAR
     <-> (ml_proba <= 1 # 2)%Q /\ p = JString "good") /\
  (Api.recommendation (Api.ml_pred_of ml_proba) p = Api.RECHAZAR
     <-> (1 # 2 < ml_proba)%Q /\ p = JString "bad") /\
  (Api.recommendation (Api.ml_pred_of ml_proba) p = Api.REVISAR
     <-> ~ ((ml_proba <= 1 # 2)%Q /\ p = JString "good") /\
         ~ ((1 # 2 < ml_proba)%Q /\ p = JString "bad")) /\
  Api.recommendation (Api.ml_pred_of (1 # 2)) (JString "good") = Api.APROBAR.
Proof.
  destruct (recommendation_cases (Api.ml_pred_of ml_proba) p) as [H1 [H2 H3]].
  rewrite ml_pred_of_good, ml_pred_of_bad in *.
  repeat split; try tauto.
Qed.

(** X12: when the remote call fails, the prediction the caller reads is
    unknown with confidence 0.0, and the recommendation is a manual review
    whatever the local probability is. *)
Theorem failed_call_goes_to_review
    (json_loads : string -> option json) (str_of_exn : exn -> string)
    (e : exn) (ml_proba : Q) :
  let result := classify_credit_risk json_loads str_of_exn (Raised e) in
  subscript result "prediction" = inl (JString "unknown") /\
  subscript result "confidence" = inl (JFloat 0) /\
  subscript result "reasoning" = inl (JString ("Error: " ++ str_of_exn e)) /\
  Api.recommendation (Api.ml_pred_of ml_proba) (JString "unknown") = Api.REVISAR.
Proof.
  cbv zeta. repeat split.
  apply (recommendation_cases (Api.ml_pred_of ml_proba) (JString "unknown")).
  split; intros [_ H]; discriminate H.
Qed.

(** The three ways [_parse_classification_response] ends. *)
Lemma parse_outcomes
    (json_loads : string -> option json) (str_of_exn : exn -> string)
    (text : string) :
  (exists v, passed_through json_loads text v /\
             _parse_classification_response json_loads str_of_exn text = v) \/
  _parse_classification_response json_loads str_of_exn text
    = basic_classification text \/
  (exists e, _parse_classification_response json_loads str_of_exn text
             = parse_error str_of_exn e).
Proof.
  unfold _parse_classification_response, parse_body.
  destruct (negb (find "{" text =? -1)%Z) eqn:E1; [|right; now left].
  destruct (negb (rfind "}" text + 1 =? 0)%Z) eqn:E2; [|right; now left].
  cbn [andb].
  destruct (json_loads _) as [v|] eqn:E3; [|right; right; eexists; reflexivity].
  destruct (py_in "prediction" v) as [[|]|e] eqn:E4;
    [| right; now left | right; right; eexists; reflexivity].
  destruct (py_in "confidence" v) as [[|]|e] eqn:E5;
    [| right; now left | right; right; eexists; reflexivity].
  left. exists v. split; [|reflexivity].
  apply negb_true_iff, Z.eqb_neq in E1, E2.
  repeat split; assumption.
Qed.

Lemma basic_classification_keys (text : string) :
  exists d label conf,
    basic_classification text = JObject d /\
    lookup "prediction" d = Some label /\ lookup "confidence" d = Some conf.
Proof.
  unfold basic_classification.
  destruct (contains "good" (lower text)); [|destruct (contains "bad" (lower text))];
    do 3 eexists; repeat split.
Qed.

(** The result is a [dict] with the keys prediction and confidence. *)
Lemma classification_keys
    (json_loads : string -> option json) (str_of_exn : exn -> string)
    (outcome : call_outcome) :
  exists d label conf,
    classify_credit_risk json_loads str_of_exn outcome = JObject d /\
    lookup "prediction" d = Some label /\ lookup "confidence" d = Some conf.
Proof.
  destruct outcome as [text | e]; cbn [classify_credit_risk]; cbv zeta.
  2: { do 3 eexists. repeat split. }
  destruct (parse_outcomes json_loads str_of_exn text)
    as [[v [[_ [_ [_ [Hp Hc]]]] ->]] | [-> | [e ->]]].
  - unfold subscript. destruct v; try (do 3 eexists; repeat split; fail).
    cbn [py_in] in Hp, Hc.
    destruct (lookup "prediction" members) as [label|] eqn:El; [|discriminate Hp].
    destruct (lookup "confidence" members) as [conf|] eqn:Ec; [|discriminate Hc].
    exists members, label, conf. repeat split; assumption.
  - destruct (basic_classification_keys text) as [d [label [conf [E [Hl Hc]]]]].
    rewrite E. unfold subscript. rewrite Hl.
    exists d, label, conf. repeat split; assumption.
  - do 3 eexists. repeat split.
Qed.

(** X13: whatever the answer of the remote model and whatever [json.loads]
    makes of it, the result of [classify_credit_risk] is a [dict] that has
    the keys prediction and confidence: the caller's reads of these two
    keys never raise. *)
Theorem classification_is_a_dict_with_both_keys
    (json_loads : string -> option json) (str_of_exn : exn -> string)
    (outcome : call_outcome) :
  let result := classify_credit_risk json_loads str_of_exn outcome in
  exists d label conf,
    result = JObject d /\
    subscript result "prediction" = inl label /\
    subscript result "confidence" = inl conf.
Proof.
  cbv zeta.
  destruct (classification_keys json_loads str_of_exn outcome)
    as [d [label [conf [E [Hl Hc]]]]].
  exists d, label, conf. rewrite E. unfold subscript. rewrite Hl, Hc.
  repeat split.
Qed.

(** X14: when the answer has an opening and a closing brace and the text
    between the first and the last of them does not decode, the result is
    unknown with confidence 0.0; the words good and bad of the answer are
    not looked at. *)
Theorem undecodable_braces_give_unknown
    (json_loads : string -> option json) (str_of_exn : exn -> string)
    (text : string) :
  find "{" text <> (-1)%Z -> rfind "}" text <> (-1)%Z ->
  json_loads (slice (find "{" text) (rfind "}" text + 1) text) = None ->
  let result := classify_credit_risk json_loads str_of_exn (Answered text) in
  subscript result "prediction" = inl (JString "unknown") /\
  subscript result "confidence" = inl (JFloat 0) /\
  result <> basic_classification text.
Proof.
  intros H1 H2 H3. cbn [classify_credit_risk]. cbv zeta.
  unfold _parse_classification_response, parse_body.
  apply Z.eqb_neq in H1. rewrite H1.
  assert (H2' : (rfind "}" text + 1 =? 0)%Z = false) by (apply Z.eqb_neq; lia).
  rewrite H2'. cbn [negb andb]. rewrite H3. cbn.
  repeat split.
  unfold basic_classification.
  destruct (contains "good" (lower text)); [|destruct (contains "bad" (lower text))];
    discriminate.
Qed.

Lemma undecodable_braces_give_unknown_witness :
  let result :=
    classify_credit_risk Decoder.loads (fun _ => EmptyString)
      (Answered "{good}") in
  subscript result "prediction" = inl (JString "unknown") /\
  subscript result "confidence" = inl (JFloat 0) /\
  result <> basic_classification "{good}".
Proof.
  refine (undecodable_braces_give_unknown Decoder.loads (fun _ => EmptyString)
            "{good}" _ _ _); [discriminate | discriminate | reflexivity].
Defined.

(** *** Answers without a decodable object *)

Lemma find_lower_bound (c : ascii) (s : string) : (-1 <= find c s)%Z.
Proof.
  induction s as [|a s IH]; cbn; [lia|].
  destruct (Ascii.eqb a c); [lia|].
  destruct (find c s <? 0)%Z eqn:E; [lia|]. apply Z.ltb_ge in E. lia.
Qed.

(** [find] answers -1 exactly when the character does not occur. *)
Lemma find_absent (c : ascii) (s : string) :
  find c s = (-1)%Z <-> ~ In c (list_ascii_of_string s).
Proof.
  induction s as [|a s IH]; cbn; [tauto|].
  pose proof (find_lower_bound c s) as Hb.
  destruct (Ascii.eqb a c) eqn:E.
  - apply Ascii.eqb_eq in E. split; [discriminate | tauto].
  - apply Ascii.eqb_neq in E.
    destruct (find c s <? 0)%Z eqn:El.
    + apply Z.ltb_lt in El. assert (find c s = (-1)%Z) by lia.
      split; [|reflexivity]. intros _ [H1 | H1]; [congruence | tauto].
    + apply Z.ltb_ge in El. split; [lia|].
      intros H. exfalso. assert (find c s = (-1)%Z) by tauto. lia.
Qed.

Lemma substring_nothing (n : nat) (s : string) : String.substring n 0 s = EmptyString.
Proof.
  revert s. induction n as [|n IH]; intros s; destruct s; cbn; auto.
Qed.

(** A slice that stops at or before its start is empty. *)
Lemma slice_backwards (start stop : Z) (s : string) :
  (0 <= stop <= start)%Z -> slice start stop s = EmptyString.
Proof.
  intros H. unfold slice, clip.
  destruct (start <? 0)%Z eqn:E1; [apply Z.ltb_lt in E1; lia|].
  destruct (stop <? 0)%Z eqn:E2; [apply Z.ltb_lt in E2; lia|].
  replace (Z.to_nat (Z.min stop (Z.of_nat (String.length s))
                     - Z.min start (Z.of_nat (String.length s)))) with 0%nat by lia.
  apply substring_nothing.
Qed.

(** X15: an answer whose last closing brace comes before its first opening
    brace is unknown with confidence 0.0: the slice between them is empty
    and does not decode. *)
Theorem reversed_braces_give_unknown (str_of_exn : exn -> string) (text : string) :
  (0 <= rfind "}" text < find "{" text)%Z ->
  _parse_classification_response Decoder.loads str_of_exn text
    = parse_error str_of_exn (JSONDecodeError EmptyString) /\
  classify_credit_risk Decoder.loads str_of_exn (Answered text)
    = parse_error str_of_exn (JSONDecodeError EmptyString).
Proof.
  intros H.
  assert (E : _parse_classification_response Decoder.loads str_of_exn text
              = parse_error str_of_exn (JSONDecodeError EmptyString)).
  { unfold _parse_classification_response, parse_body.
    assert (H1 : (find "{" text =? -1)%Z = false) by (apply Z.eqb_neq; lia).
    assert (H2 : (rfind "}" text + 1 =? 0)%Z = false) by (apply Z.eqb_neq; lia).
    rewrite H1, H2. cbn [negb andb].
    rewrite slice_backwards by lia. reflexivity. }
  split; [exact E|]. cbn [classify_credit_risk]. cbv zeta. rewrite E. reflexivity.
Qed.

Lemma reversed_braces_give_unknown_witness :
  _parse_classification_response Decoder.loads (fun _ => EmptyString) "} good {"
    = parse_error (fun _ => EmptyString) (JSONDecodeError EmptyString) /\
  classify_credit_risk Decoder.loads (fun _ => EmptyString) (Answered "} good {")
    = parse_error (fun _ => EmptyString) (JSONDecodeError EmptyString).
Proof.
  refine (reversed_braces_give_unknown (fun _ => EmptyString) "} good {" _).
  vm_compute. split; [discriminate | reflexivity].
Defined.

(** X16: an answer without an opening brace is classified by its words,
    whatever the decoder: good when it holds the word good in any case of
    letters, also when it holds bad as well; otherwise bad when it holds
    bad; otherwise unknown. *)
Theorem answer_without_brace_is_read_by_words
    (json_loads : string -> option json) (str_of_exn : exn -> string)
    (text : string) :
  ~ In "{"%char (list_ascii_of_string text) ->
  let result := classify_credit_risk json_loads str_of_exn (Answered text) in
  result = basic_classification text /\
  (contains "good" (lower text) = true -> result = fallback_good) /\
  (contains "good" (lower text) = false -> contains "bad" (lower text) = true ->
   result = fallback_bad) /\
  (contains "good" (lower text) = false -> contains "bad" (lower text) = false ->
   result = could_not_parse).
Proof.
  intros H. apply find_absent in H.
  assert (E : classify_credit_risk json_loads str_of_exn (Answered text)
              = basic_classification text).
  { cbn [classify_credit_risk]. cbv zeta.
    unfold _parse_classification_response, parse_body.
    rewrite H, Z.eqb_refl. cbn [negb andb]. cbv beta iota.
    destruct (basic_classification_keys text) as [d [label [conf [E [Hl _]]]]].
    rewrite E. unfold subscript. now rewrite Hl. }
  cbv zeta. rewrite E. unfold basic_classification.
  split; [reflexivity|].
  split; [now intros ->|].
  split; [now intros -> ->|]. now intros -> ->.
Qed.

Lemma answer_without_brace_is_read_by_words_witness :
  let result :=
    classify_credit_risk Decoder.loads (fun _ => EmptyString)
      (Answered "Not GOOD, rather bad") in
  result = basic_classification "Not GOOD, rather bad" /\
  (contains "good" (lower "Not GOOD, rather bad") = true -> result = fallback_good) /\
  (contains "good" (lower "Not GOOD, rather bad") = false ->
   contains "bad" (lower "Not GOOD, rather bad") = true -> result = fallback_bad) /\
  (contains "good" (lower "Not GOOD, rather bad") = false ->
   contains "bad" (lower "Not GOOD, rather bad") = false -> result = could_not_parse).
Proof.
  refine (answer_without_brace_is_read_by_words Decoder.loads (fun _ => EmptyString)
            "Not GOOD, rather bad" _).
  cbn. intros H. repeat (destruct H as [H | H]; [discriminate H|]). exact H.
Defined.

(** ** Batches *)

Import Batch.

Lemma lookup_store_same (key : string) (v : json) (d : list (string * json)) :
  lookup key (store key v d) = Some v.
Proof.
  induction d as [|[k w] d IH]; cbn.
  - now rewrite String.eqb_refl.
  - destruct (String.eqb k key) eqn:E; cbn; rewrite E; [reflexivity | exact IH].
Qed.

Lemma lookup_store_other (key key' : string) (v : json) (d : list (string * json)) :
  key' <> key -> lookup key' (store key v d) = lookup key' d.
Proof.
  intros H. induction d as [|[k w] d IH]; cbn.
  - apply String.eqb_neq in H. rewrite String.eqb_sym in H.
    rewrite String.eqb_sym. now rewrite String.eqb_sym, H.
  - destruct (String.eqb k key) eqn:E; cbn.
    + apply String.eqb_eq in E. subst k.
      destruct (String.eqb key key') eqn:E'; [|reflexivity].
      apply String.eqb_eq in E'. congruence.
    + destruct (String.eqb k key'); [reflexivity | exact IH].
Qed.

(** The slices of the batches, put end to end, are the rows from the first
    start on. *)
Lemma batches_cover (df : list row) (step : nat) :
  (0 < step)%nat ->
  forall (fuel a : nat),
    (List.length df <= fuel + a)%nat ->
    flat_map (fun i => iloc i (i + Z.of_nat step) df)
      (range_loop fuel (Z.of_nat a) (Z.of_nat (List.length df)) (Z.of_nat step))
    = skipn a df.
Proof.
  intros Hs. induction fuel as [|fuel IH]; intros a Hf.
  - cbn. symmetry. apply skipn_all2. lia.
  - cbn [range_loop].
    destruct (Z.of_nat a <? Z.of_nat (List.length df))%Z eqn:E.
    + cbn [flat_map].
      replace (Z.of_nat a + Z.of_nat step)%Z with (Z.of_nat (a + step)) by lia.
      rewrite IH by lia. unfold iloc.
      replace (Z.to_nat (Z.of_nat (a + step) - Z.of_nat a)) with step by lia.
      rewrite Nat2Z.id.
      replace (a + step)%nat with (step + a)%nat by lia.
      rewrite <- skipn_skipn. apply firstn_skipn.
    + apply Z.ltb_ge in E. cbn. symmetry. apply skipn_all2. lia.
Qed.

Lemma flat_map_map {A B C : Type} (f : A -> list B) (g : B -> C) (l : list A) :
  flat_map (fun x => map g (f x)) l = map g (flat_map f l).
Proof.
  induction l as [|x l IH]; [reflexivity|]. cbn. now rewrite IH, map_app.
Qed.

(** The starts of the batches are the multiples of the step, and there are
    as many as the announced total. *)
Lemma range_loop_multiples (stop step : Z) :
  (0 < step)%Z ->
  forall (fuel k : nat),
    (stop <= Z.of_nat fuel + Z.of_nat k * step)%Z ->
    let starts := range_loop fuel (Z.of_nat k * step) stop step in
    starts = map (fun j => (Z.of_nat j * step)%Z) (seq k (List.length starts)) /\
    Z.of_nat (List.length starts)
      = Z.max 0 ((stop - Z.of_nat k * step - 1) / step + 1).
Proof.
  intros Hs. induction fuel as [|fuel IH]; intros k Hf starts; subst starts.
  - cbn [range_loop List.length seq map]. split; [reflexivity|].
    assert ((stop - Z.of_nat k * step - 1) / step < 0)%Z
      by (apply Z.div_lt_upper_bound; lia).
    lia.
  - cbn [range_loop].
    destruct (Z.of_nat k * step <? stop)%Z eqn:E.
    + apply Z.ltb_lt in E.
      replace (Z.of_nat k * step + step)%Z with (Z.of_nat (S k) * step)%Z by lia.
      destruct (IH (S k)) as [H1 H2]; [lia|].
      cbn [List.length seq map]. split; [f_equal; exact H1|].
      rewrite Nat2Z.inj_succ, H2.
      replace (stop - Z.of_nat (S k) * step - 1)%Z
        with (stop - Z.of_nat k * step - 1 + (-1) * step)%Z by lia.
      rewrite Z.div_add by lia.
      assert (0 <= (stop - Z.of_nat k * step - 1) / step)%Z
        by (apply Z.div_pos; lia).
      lia.
    + apply Z.ltb_ge in E. cbn [List.length seq map]. split; [reflexivity|].
      assert ((stop - Z.of_nat k * step - 1) / step < 0)%Z
        by (apply Z.div_lt_upper_bound; lia).
      lia.
Qed.

Section BatchProperties.

Variable json_dumps : row -> string + exn.
Variable json_loads : string -> option json.
Variable str_of_exn : exn -> string.
Variable invoke_description : string -> description_outcome.
Variable invoke_classification : string -> call_outcome.

(** X17: with a positive batch size [process_batch] returns exactly one
    result per row of the frame, in the order of the rows, whatever the
    size of the batches; with a batch size of 0 it raises the [ValueError]
    of [range]; with a negative batch size it processes no row and returns
    an empty frame. *)
Theorem process_batch_by_batch_size (df : list row) (batch_size : Z) :
  let process :=
    process_row json_dumps json_loads str_of_exn invoke_description
      invoke_classification in
  let returned :=
    process_batch json_dumps json_loads str_of_exn invoke_description
      invoke_classification df batch_size in
  ((0 < batch_size)%Z ->
   exists announced, returned = Frame announced (map process df)) /\
  (batch_size = 0%Z -> returned = ValueError) /\
  ((batch_size < 0)%Z -> returned = Frame [] []).
Proof.
  cbv zeta. unfold process_batch. split; [|split].
  - intros H. destruct (batch_size =? 0)%Z eqn:E; [apply Z.eqb_eq in E; lia|].
    eexists. f_equal. unfold range_from_zero.
    apply Z.ltb_lt in H. rewrite H. apply Z.ltb_lt in H.
    rewrite flat_map_map. f_equal.
    pose proof (batches_cover df (Z.to_nat batch_size)) as Hc.
    rewrite Z2Nat.id in Hc by lia.
    rewrite Nat2Z.id. apply (Hc ltac:(lia) (List.length df) 0%nat). lia.
  - intros ->. reflexivity.
  - intros H. destruct (batch_size =? 0)%Z eqn:E; [apply Z.eqb_eq in E; lia|].
    unfold range_from_zero.
    destruct (0 <? batch_size)%Z eqn:E'; [apply Z.ltb_lt in E'; lia|]. reflexivity.
Qed.

(** X18: with a positive batch size the batches are announced as 1, 2, ...
    up to their number, and the total announced with each of them,
    [(len(df) - 1) // batch_size + 1], is the number of batches processed,
    also for an empty frame. *)
Theorem batches_are_numbered_to_the_total (df : list row) (batch_size : Z) :
  (0 < batch_size)%Z ->
  exists announced results,
    process_batch json_dumps json_loads str_of_exn invoke_description
      invoke_classification df batch_size
      = Frame announced results /\
    announced
      = map (fun j => (Z.of_nat j + 1, Z.of_nat (List.length announced))%Z)
            (seq 0 (List.length announced)) /\
    Z.of_nat (List.length announced)
      = ((Z.of_nat (List.length df) - 1) / batch_size + 1)%Z.
Proof.
  intros H. unfold process_batch.
  destruct (batch_size =? 0)%Z eqn:E; [apply Z.eqb_eq in E; lia|].
  do 2 eexists. split; [reflexivity|].
  unfold range_from_zero. apply Z.ltb_lt in H. rewrite H. apply Z.ltb_lt in H.
  destruct (range_loop_multiples (Z.of_nat (List.length df)) batch_size H
              (Z.to_nat (Z.of_nat (List.length df))) 0%nat ltac:(lia))
    as [H1 H2].
  cbn [Z.of_nat Z.mul] in H1, H2. rewrite Z.sub_0_r in H2.
  set (starts := range_loop _ 0 _ batch_size) in *.
  rewrite length_map.
  assert (Hn : Z.of_nat (List.length starts)
               = ((Z.of_nat (List.length df) - 1) / batch_size + 1)%Z).
  { rewrite H2. apply Z.max_r.
    assert (-1 <= (Z.of_nat (List.length df) - 1) / batch_size)%Z
      by (apply Z.div_le_lower_bound; lia).
    lia. }
  split; [|exact Hn].
  rewrite H1 at 1. rewrite map_map. apply map_ext. intros j.
  rewrite Z.div_mul by lia. now rewrite Hn.
Qed.

End BatchProperties.

Lemma batches_are_numbered_to_the_total_witness :
  exists announced results,
    process_batch sample_dumps Decoder.loads sample_str sample_describe
      sample_classify sample_frame 2
      = Frame announced results /\
    announced
      = map (fun j => (Z.of_nat j + 1, Z.of_nat (List.length announced))%Z)
            (seq 0 (List.length announced)) /\
    Z.of_nat (List.length announced)
      = ((Z.of_nat (List.length sample_frame) - 1) / 2 + 1)%Z.
Proof.
  exact (batches_are_numbered_to_the_total sample_dumps Decoder.loads sample_str
           sample_describe sample_classify sample_frame 2 eq_refl).
Defined.

Section RowProperties.

Variable json_dumps : row -> string + exn.
Variable json_loads : string -> option json.
Variable str_of_exn : exn -> string.
Variable invoke_description : string -> description_outcome.
Variable invoke_classification : string -> call_outcome.

(** X19: a row becomes an error row, with the label error and confidence
    0.0, when [json.dumps] of the customer raises or when the
    classification has no key reasoning; in every other case it gets the
    description, label, confidence and reasoning of the two calls, and a
    description call that failed is no error: its error text is taken as
    the description and classified. *)
Theorem process_row_cases (r : row) :
  let result :=
    process_row json_dumps json_loads str_of_exn invoke_description
      invoke_classification r in
  match json_dumps r with
  | inr e => result = error_row str_of_exn r e
  | inl _ =>
      exists prompt description d label conf,
        _create_description_prompt json_dumps r = inl prompt /\
        description
          = match invoke_description prompt with
            | Described text => text
            | ClientFailed e =>
                ("Error al generar descripción: " ++ str_of_exn e)%string
            | Failed e => ("Error inesperado: " ++ str_of_exn e)%string
            end /\
        classify_customer json_dumps json_loads str_of_exn invoke_classification
          r description = inl (JObject d) /\
        lookup "prediction" d = Some label /\ lookup "confidence" d = Some conf /\
        match lookup "reasoning" d with
        | Some reasoning =>
            result
            = store "bedrock_reasoning" reasoning
                (store "bedrock_confidence" conf
                   (store "bedrock_prediction" label
                      (store "bedrock_description" (JString description) r)))
        | None => result = error_row str_of_exn r (KeyError "reasoning")
        end
  end.
Proof.
  cbv zeta. unfold process_row, enriched_row.
  unfold generate_credit_description, classify_customer,
    _create_description_prompt, _create_classification_prompt.
  destruct (json_dumps r) as [dumped | e]; [|reflexivity].
  cbv zeta.
  match goal with
  | |- context [classify_credit_risk json_loads str_of_exn ?o] =>
      destruct (classification_keys json_loads str_of_exn o)
        as [d [label [conf [E [Hl Hc]]]]]
  end.
  do 2 eexists. exists d, label, conf.
  split; [reflexivity|]. split; [reflexivity|].
  rewrite E. split; [reflexivity|].
  split; [exact Hl|]. split; [exact Hc|].
  unfold subscript. rewrite Hl, Hc.
  destruct (lookup "reasoning" d); reflexivity.
Qed.

(** The four columns every result row gets. *)
Lemma process_row_shape (r : row) :
  exists a b c d,
    process_row json_dumps json_loads str_of_exn invoke_description
      invoke_classification r
    = store "bedrock_reasoning" d
        (store "bedrock_confidence" c
           (store "bedrock_prediction" b
              (store "bedrock_description" a r))).
Proof.
  unfold process_row, error_row.
  destruct (enriched_row _ _ _ _ _ r) as [result | e] eqn:E.
  - unfold enriched_row in E.
    destruct (generate_credit_description _ _ _ r) as [description|]; [|discriminate E].
    destruct (classify_customer _ _ _ _ r description) as [classification|];
      [|discriminate E].
    cbv zeta in E.
    destruct (subscript classification "prediction"); [|discriminate E].
    destruct (subscript classification "confidence"); [|discriminate E].
    destruct (subscript classification "reasoning"); [|discriminate E].
    injection E as <-. do 4 eexists. reflexivity.
  - do 4 eexists. reflexivity.
Qed.

(** X20: every result row has the columns bedrock_description,
    bedrock_prediction, bedrock_confidence and bedrock_reasoning, and every
    other column of the row keeps the value it had. *)
Theorem result_row_keeps_the_columns (r : row) :
  let result :=
    process_row json_dumps json_loads str_of_exn invoke_description
      invoke_classification r in
  (exists a b c d,
     lookup "bedrock_description" result = Some a /\
     lookup "bedrock_prediction" result = Some b /\
     lookup "bedrock_confidence" result = Some c /\
     lookup "bedrock_reasoning" result = Some d) /\
  (forall column : string,
     column <> "bedrock_description" -> column <> "bedrock_prediction" ->
     column <> "bedrock_confidence" -> column <> "bedrock_reasoning" ->
     lookup column result = lookup column r).
Proof.
  cbv zeta. destruct (process_row_shape r) as [a [b [c [d E]]]]. rewrite E. split.
  - exists a, b, c, d.
    repeat (rewrite ?lookup_store_same;
            rewrite ?lookup_store_other by discriminate).
    repeat split.
  - intros column H1 H2 H3 H4.
    now rewrite !lookup_store_other by assumption.
Qed.

End RowProperties.

(** ** The health endpoints *)

Import Endpoints.

(** X21: the health endpoint with monitoring always answers the status
    healthy, whatever the models and the system status are, and puts the
    two model flags under the key models; [test_health], which reads them
    at the top level as the endpoint without monitoring has them, passes
    on that one and fails on the monitored one. *)
Theorem health_test_fails_on_monitored_api
    (rf_model_loaded bedrock_client_loaded : bool) (timestamp : string)
    (m : metrics) (now : datetime) :
  let monitored :=
    health_check_monitored rf_model_loaded bedrock_client_loaded timestamp m now in
  subscript monitored "status" = inl (JString "healthy") /\
  subscript monitored "system_status" = inl (JString (_get_system_status m now)) /\
  subscript monitored "ml_model" = inr (KeyError "ml_model") /\
  test_health (Answer 200 (Some monitored)) = false /\
  test_health (Answer 200 (Some (health_check rf_model_loaded bedrock_client_loaded)))
    = true.
Proof. cbv zeta. repeat split. Qed.

(** ** The decoder on the text between the braces *)

Import Decoder.

(** The members of an object decode to an object. *)
Lemma members_object (fuel : nat) :
  forall (s : string) (acc : list (string * json)) (v : json) (rest : string),
    members fuel s acc = Some (v, rest) -> exists d, v = JObject d.
Proof.
  induction fuel as [|fuel IH]; intros s acc v rest H; [discriminate H|].
  cbn [members] in H.
  destruct s as [|q s']; [discriminate H|].
  destruct (Ascii.eqb q dquote); [|discriminate H].
  destruct (scanstring _ s') as [[key r1]|]; [|discriminate H].
  destruct (skip_ws r1) as [|c1 r2]; [discriminate H|].
  destruct (Ascii.eqb c1 ":") eqn:Ec.
  2: { destruct c1 as [[] [] [] [] [] [] [] []]; try discriminate H;
       discriminate Ec. }
  apply Ascii.eqb_eq in Ec. subst c1.
  destruct (scan_once fuel (skip_ws r2)) as [[w r3]|]; [|discriminate H].
  destruct (skip_ws r3) as [|c3 r4]; [discriminate H|].
  destruct (Ascii.eqb c3 "}") eqn:E1.
  { apply Ascii.eqb_eq in E1. subst c3. injection H as <- _. eexists. reflexivity. }
  destruct (Ascii.eqb c3 ",") eqn:E2.
  { apply Ascii.eqb_eq in E2. subst c3. exact (IH _ _ _ _ H). }
  destruct c3 as [[] [] [] [] [] [] [] []]; try discriminate H;
    try discriminate E1; discriminate E2.
Qed.

Lemma scan_once_brace (fuel : nat) (rest : string) (v : json) (r : string) :
  scan_once (S fuel) (String "{" rest) = Some (v, r) -> exists d, v = JObject d.
Proof.
  cbn [scan_once].
  change (Ascii.eqb "{" dquote) with false.
  change (Ascii.eqb "{" "{") with true. cbv iota.
  destruct (skip_ws rest) as [|c body].
  - intros H. exact (members_object _ _ _ _ _ H).
  - destruct c as [[] [] [] [] [] [] [] []]; cbv iota; intros H;
      first [ exact (members_object _ _ _ _ _ H)
            | injection H as <- _; eexists; reflexivity ].
Qed.

(** A text that opens with a brace decodes to an object, if it decodes. *)
Lemma loads_object (s : string) (v : json) :
  loads (String "{" s) = Some v -> exists d, v = JObject d.
Proof.
  unfold loads.
  change (skip_ws (String "{" s)) with (String "{" s).
  remember (2 * String.length (String "{" s) + 2)%nat as fuel eqn:Ef.
  destruct fuel as [|fuel]; [discriminate|].
  destruct (scan_once (S fuel) (String "{" s)) as [[w r]|] eqn:E; [|discriminate].
  destruct (skip_ws r); [|discriminate].
  intros [= <-]. exact (scan_once_brace _ _ _ _ E).
Qed.

Lemma find_upper_bound (c : ascii) (s : string) :
  (find c s < Z.of_nat (String.length s))%Z.
Proof.
  induction s as [|a s IH]; cbn [find String.length]; [lia|].
  destruct (Ascii.eqb a c); [lia|].
  destruct (find c s <? 0)%Z; lia.
Qed.

(** A substring that starts where [find] points starts with the character
    looked for. *)
Lemma substring_at_find (c : ascii) (m : nat) :
  forall (s : string) (n : nat),
    find c s = Z.of_nat n ->
    exists r, String.substring n (S m) s = String c r.
Proof.
  induction s as [|a s IH]; intros n H; cbn [find] in H; [lia|].
  destruct (Ascii.eqb a c) eqn:E.
  - apply Ascii.eqb_eq in E. subst a.
    destruct n; [|lia]. cbn. eexists. reflexivity.
  - destruct (find c s <? 0)%Z eqn:El; [lia|].
    destruct n as [|n]; [apply Z.ltb_ge in El; lia|].
    cbn [String.substring]. apply IH. lia.
Qed.

Lemma slice_at_find (c : ascii) (stop : Z) (s : string) :
  (0 <= find c s)%Z ->
  slice (find c s) stop s = EmptyString \/
  exists r, slice (find c s) stop s = String c r.
Proof.
  intros H. pose proof (find_upper_bound c s) as Hu.
  assert (Hc : clip (Z.of_nat (String.length s)) (find c s) = find c s).
  { unfold clip. destruct (find c s <? 0)%Z eqn:E; [apply Z.ltb_lt in E; lia|].
    apply Z.min_l. lia. }
  unfold slice. rewrite Hc.
  destruct (Z.to_nat (clip (Z.of_nat (String.length s)) stop - find c s)) as [|m].
  - left. apply substring_nothing.
  - right. apply substring_at_find. lia.
Qed.

(** X22: with the decoder, whatever the answer is, the value the parser
    hands through is a JSON object that has the keys prediction and
    confidence, and the only exception its [try] can meet is the
    [JSONDecodeError] of [json.loads]: the membership tests never raise. *)
Theorem decoded_answer_is_an_object (text : string) :
  (forall v, passed_through loads text v ->
     exists d label conf,
       v = JObject d /\
       lookup "prediction" d = Some label /\ lookup "confidence" d = Some conf) /\
  match parse_body loads text with
  | inl _ => True
  | inr (JSONDecodeError _) => True
  | inr _ => False
  end.
Proof.
  assert (Hobj : forall v,
            find "{" text <> (-1)%Z ->
            loads (slice (find "{" text) (rfind "}" text + 1) text) = Some v ->
            exists d, v = JObject d).
  { intros v H1 H3.
    pose proof (find_lower_bound "{" text) as Hl.
    destruct (slice_at_find "{" (rfind "}" text + 1) text ltac:(lia)) as [E | [r E]];
      rewrite E in H3; [discriminate H3|].
    exact (loads_object _ _ H3). }
  split.
  - intros v [H1 [_ [H3 [Hp Hc]]]].
    destruct (Hobj v H1 H3) as [d ->]. cbn [py_in] in Hp, Hc.
    destruct (lookup "prediction" d) as [label|] eqn:El; [|discriminate Hp].
    destruct (lookup "confidence" d) as [conf|] eqn:Ec; [|discriminate Hc].
    exists d, label, conf. repeat split; assumption.
  - unfold parse_body.
    destruct (negb (find "{" text =? -1)%Z) eqn:E1; [|exact I].
    destruct (negb (rfind "}" text + 1 =? 0)%Z) eqn:E2; [|exact I].
    cbn [andb].
    destruct (loads _) as [v|] eqn:E3; [|exact I].
    apply negb_true_iff, Z.eqb_neq in E1.
    destruct (Hobj v E1 eq_refl) as [d ->]. cbn [py_in].
    destruct (lookup "prediction" d); [|exact I].
    destruct (lookup "confidence" d); exact I.
Qed.

(** ** Agreement and automatic decisions *)

(** X23: for a local label taken from the probability and any remote label
    that is a string, the agreement flag [log_prediction] stores is true
    exactly when the recommendation is an automatic one, approve or
    reject; a manual review is always stored as a disagreement. *)
Theorem agreement_is_automatic_decision (ml_proba : Q) (bedrock_result : string) :
  let ml_pred := Api.ml_pred_of ml_proba in
  let stored :=
    prediction_records
      [call_log_prediction 0%Z JNull ml_pred ml_proba bedrock_result 0 0] in
  (map agreement stored = [true]
   <-> Api.recommendation ml_pred (JString bedrock_result) = Api.APROBAR \/
       Api.recommendation ml_pred (JString bedrock_result) = Api.RECHAZAR) /\
  (map agreement stored = [false]
   <-> Api.recommendation ml_pred (JString bedrock_result) = Api.REVISAR).
Proof.
  cbv zeta. cbn [prediction_records flat_map app map agreement].
  destruct (recommendation_cases (Api.ml_pred_of ml_proba) (JString bedrock_result))
    as [H1 [H2 H3]].
  rewrite H1, H2, H3.
  destruct (ml_pred_known ml_proba) as [-> | ->];
    match goal with
    | |- context [String.eqb ?a bedrock_result] =>
        destruct (String.eqb a bedrock_result) eqn:E;
        [apply String.eqb_eq in E; subst bedrock_result
        |apply String.eqb_neq in E]
    end;
    intuition (try discriminate; try congruence).
Qed.

(** ** The feature vector and the training columns *)

Lemma find_encoder_absent (col : string)
    (label_encoders : list (string * Features.encoder)) :
  ~ In col (map fst label_encoders) ->
  Features.find_encoder col label_encoders = None.
Proof.
  induction label_encoders as [|[k e] rest IH]; cbn; [reflexivity|].
  intros H. destruct (String.eqb k col) eqn:E.
  - apply String.eqb_eq in E. tauto.
  - apply IH. tauto.
Qed.

(** Columns without an encoder leave the data as it is. *)
Lemma encode_columns_nothing (label_encoders : list (string * Features.encoder)) :
  forall (columns : list string) (data : list (string * json)),
    (forall col, In col columns -> Features.find_encoder col label_encoders = None) ->
    Features.encode_columns columns label_encoders data = data.
Proof.
  induction columns as [|col rest IH]; intros data H; [reflexivity|].
  cbn [Features.encode_columns]. rewrite (H col) by now left.
  destruct (lookup col data); apply IH; intros c Hc; apply H; now right.
Qed.

(** The encoded columns are added under names of their own: the other
    keys of the data keep their values. *)
Lemma encode_columns_other (label_encoders : list (string * Features.encoder))
    (key : string) :
  forall (columns : list string) (data : list (string * json)),
    (forall col, In col columns -> key <> (col ++ "_encoded")%string) ->
    lookup key (Features.encode_columns columns label_encoders data)
      = lookup key data.
Proof.
  induction columns as [|col rest IH]; intros data H; [reflexivity|].
  cbn [Features.encode_columns].
  rewrite IH by (intros c Hc; apply H; now right).
  destruct (lookup col data) as [v|]; [|reflexivity].
  destruct (Features.find_encoder col label_encoders); [|reflexivity].
  apply lookup_store_other. apply H. now left.
Qed.

(** X24: with the encoders the training notebook saves, whose keys are
    the capitalised column names of the training frame, no column of a
    request has an encoder: the feature vector is the age, the credit
    amount, the duration and the job of the request with 0 in the place of
    every encoded column, whatever the sex, housing, accounts and purpose
    of the request are. *)
Theorem saved_encoders_never_encode
    (request : Features.CreditRequest) (columns : list string)
    (label_encoders : list (string * Features.encoder)) :
  map fst label_encoders = Training.encoder_keys columns ->
  Features.features request label_encoders
  = Some [JInt (Features.age request); JFloat (Features.credit_amount request);
          JInt (Features.duration request); JInt 0; JInt (Features.job request);
          JInt 0; JInt 0; JInt 0; JInt 0].
Proof.
  intros Hk. unfold Features.features.
  rewrite encode_columns_nothing; [reflexivity|].
  intros col Hc. apply find_encoder_absent. rewrite Hk.
  unfold Training.encoder_keys. rewrite filter_In. intros [Hin _].
  cbn in Hc, Hin.
  repeat (destruct Hc as [<- | Hc];
          [repeat (destruct Hin as [Hin | Hin]; [discriminate Hin|]); exact Hin|]).
  exact Hc.
Qed.

Lemma saved_encoders_never_encode_witness :
  Features.features
    (Features.mk_request 35 "male" 2 "own" (Some "little") None 5000 24 "car")
    Training.saved_encoders
  = Some [JInt 35; JFloat 5000; JInt 24; JInt 0; JInt 2;
          JInt 0; JInt 0; JInt 0; JInt 0].
Proof.
  exact (saved_encoders_never_encode
           (Features.mk_request 35 "male" 2 "own" (Some "little") None 5000 24 "car")
           Training.full_columns Training.saved_encoders eq_refl).
Defined.

(** X25: the feature vector of a request always has 9 entries and is built
    without a [KeyError], whatever the encoders are; the training notebook
    uses 3 columns, one per categorical column of the frame and one more
    for bedrock_confidence: 10 columns on a frame that has them all. *)
Theorem feature_counts :
  (forall (request : Features.CreditRequest)
          (label_encoders : list (string * Features.encoder)),
     exists fs, Features.features request label_encoders = Some fs /\
                List.length fs = 9%nat) /\
  (forall columns : list string,
     List.length (Training.feature_columns columns)
     = (3 + List.length (Training.encoder_keys columns)
        + (if Training.has_column "bedrock_confidence" columns then 1 else 0))%nat) /\
  (forall columns : list string,
     (forall col, In col Training.categorical_columns ->
                  Training.has_column col columns = true) ->
     Training.has_column "bedrock_confidence" columns = true ->
     List.length (Training.feature_columns columns) = 10%nat).
Proof.
  split; [|split].
  - intros request label_encoders. unfold Features.features.
    rewrite !encode_columns_other by
      (intros col Hc; cbn in Hc;
       repeat (destruct Hc as [<- | Hc]; [discriminate|]); contradiction).
    cbn [Features.request_dict lookup String.eqb Ascii.eqb Bool.eqb].
    eexists. split; reflexivity.
  - intros columns. unfold Training.feature_columns.
    rewrite !length_app, length_map. cbn [List.length].
    destruct (Training.has_column "bedrock_confidence" columns); cbn; lia.
  - intros columns Hall Hb. unfold Training.feature_columns.
    rewrite Hb, !length_app, length_map.
    unfold Training.encoder_keys. rewrite filter_all; [reflexivity|].
    apply forallb_forall. exact Hall.
Qed.

(** X26: the synthetic target of the training notebook is 1 exactly when at
    least two of its three conditions hold: an age below 25, a credit
    amount above the 0.8 quantile, a duration above 24. *)
Theorem synthetic_target_is_a_majority (age credit_amount duration q80 : Q) :
  let young := Qlt_bool age 25 in
  let large := Qlt_bool q80 credit_amount in
  let long := Qlt_bool 24 duration in
  Training.synthetic_target age credit_amount duration q80
  = if (young && large) || (young && long) || (large && long) then 1%Z else 0%Z.
Proof.
  cbv zeta. unfold Training.synthetic_target, Training.risk_score.
  destruct (Qlt_bool age 25); destruct (Qlt_bool q80 credit_amount);
    destruct (Qlt_bool 24 duration); reflexivity.
Qed.
